(** * Smart City Planner: simulation engine and metrics calculator

    A shallow embedding of [src/engine/Simulator.js], of the scenario
    catalog, zone table and thresholds of [utils/constants.js], of the
    metrics calculator ([getZoneDistribution], ratings, [compare],
    [getRecommendations]), of [clamp] and [calculateSustainabilityScore] of
    [utils/helpers.js] and of [AIGenerator.adjustFromPrompt], with the
    properties of the temporal simulation engine and of these functions
    stated over it.

    Numbers.  JavaScript numbers are modelled as exact rationals [Q]:
    [Math.round] is [floor (x + 1/2)] (ties go up, as in JavaScript),
    [a || b] on numbers picks [b] exactly when [a] is zero, and the decimal
    constants of the source ([1.5], [0.015], ...) are the rationals they
    denote.  Years and zone counts are integers.  The rounding errors of
    binary floating point are outside this model; where a statement is about
    the very value the code computes, the zone shares, the computation is
    given a second time in IEEE double precision ([share_double]). *)

From Stdlib Require Import ZArith QArith Qround Qpower Lqa Lia List Permutation Sorted Ascii.
From Stdlib Require Floats Uint63.
From stdpp Require Import gmap strings.
Import ListNotations.

Local Open Scope Z_scope.

(** ** JavaScript arithmetic used by the engine *)

Definition Math_round (x : Q) : Z := Qfloor (x + 0.5).

Definition Math_max (a b : Q) : Q := if Qle_bool a b then b else a.

Definition Math_min (a b : Q) : Q := if Qle_bool a b then a else b.

Definition Math_pow (x : Q) (n : Z) : Q := Qpower x n.

(** [a || b] where [a] is a number: zero is falsy. *)
Definition js_or (a b : Q) : Q := if Qeq_bool a 0 then b else a.

(** [Math.round(Math.min(100, Math.max(0, x)))], the write-back of a bounded
    metric in [applyScenario]. *)
Definition round_clamped (x : Q) : Q :=
  inject_Z (Math_round (Math_min 100 (Math_max 0 x))).

(** [Math.round(x)], the write-back of an unbounded field. *)
Definition rounded (x : Q) : Q := inject_Z (Math_round x).

(** ** Data model *)

(** [city.stats]: the statistics record. *)
Record Stats := mkStats {
  population : Q;
  sustainabilityScore : Q;
  carbonFootprint : Q;
  energyEfficiency : Q;
  greenCoverage : Q;
  transitScore : Q;
  walkability : Q;
  airQuality : Q;
  energyConsumption : Q
}.

(** [city.distribution]: zone kind to cell count. *)
Module Zone.
Inductive t := empty | residential | commercial | industrial | green | transit | road.
End Zone.

Record Distribution := mkDistribution {
  n_empty : Z;
  n_residential : Z;
  n_commercial : Z;
  n_industrial : Z;
  n_green : Z;
  n_transit : Z;
  n_road : Z
}.

Record CityModel := mkCity {
  stats : Stats;
  distribution : Distribution
}.

(** The object handed to a scenario modifier: eight statistics plus the
    synthesized [trafficDensity] and [energyDemand]. *)
Module Snap.
Record t := mk {
  population : Q;
  sustainabilityScore : Q;
  carbonFootprint : Q;
  energyEfficiency : Q;
  greenCoverage : Q;
  transitScore : Q;
  walkability : Q;
  airQuality : Q;
  trafficDensity : Q;
  energyDemand : Q
}.

Definition set_population v c :=
  mk v (sustainabilityScore c) (carbonFootprint c) (energyEfficiency c)
     (greenCoverage c) (transitScore c) (walkability c) (airQuality c)
     (trafficDensity c) (energyDemand c).
Definition set_sustainabilityScore v c :=
  mk (population c) v (carbonFootprint c) (energyEfficiency c)
     (greenCoverage c) (transitScore c) (walkability c) (airQuality c)
     (trafficDensity c) (energyDemand c).
Definition set_carbonFootprint v c :=
  mk (population c) (sustainabilityScore c) v (energyEfficiency c)
     (greenCoverage c) (transitScore c) (walkability c) (airQuality c)
     (trafficDensity c) (energyDemand c).
Definition set_energyEfficiency v c :=
  mk (population c) (sustainabilityScore c) (carbonFootprint c) v
     (greenCoverage c) (transitScore c) (walkability c) (airQuality c)
     (trafficDensity c) (energyDemand c).
Definition set_greenCoverage v c :=
  mk (population c) (sustainabilityScore c) (carbonFootprint c)
     (energyEfficiency c) v (transitScore c) (walkability c) (airQuality c)
     (trafficDensity c) (energyDemand c).
Definition set_transitScore v c :=
  mk (population c) (sustainabilityScore c) (carbonFootprint c)
     (energyEfficiency c) (greenCoverage c) v (walkability c) (airQuality c)
     (trafficDensity c) (energyDemand c).
Definition set_airQuality v c :=
  mk (population c) (sustainabilityScore c) (carbonFootprint c)
     (energyEfficiency c) (greenCoverage c) (transitScore c) (walkability c) v
     (trafficDensity c) (energyDemand c).
Definition set_trafficDensity v c :=
  mk (population c) (sustainabilityScore c) (carbonFootprint c)
     (energyEfficiency c) (greenCoverage c) (transitScore c) (walkability c)
     (airQuality c) v (energyDemand c).
Definition set_energyDemand v c :=
  mk (population c) (sustainabilityScore c) (carbonFootprint c)
     (energyEfficiency c) (greenCoverage c) (transitScore c) (walkability c)
     (airQuality c) (trafficDensity c) v.
End Snap.

(** ** The scenario catalog ([SCENARIOS] of constants.js) *)

Record Scenario := mkScenario {
  name : string;
  description : string;
  modifier : Snap.t -> Snap.t
}.

Definition population_growth : Scenario :=
  {| name := "Population +50%";
     description := "Simulate rapid population growth";
     modifier := fun city =>
       let city := Snap.set_population (Snap.population city * 1.5)%Q city in
       let city := Snap.set_trafficDensity (Snap.trafficDensity city * 1.6)%Q city in
       let city := Snap.set_energyDemand (Snap.energyDemand city * 1.4)%Q city in
       city |}.

Definition add_transit : Scenario :=
  {| name := "Add Transit Line";
     description := "New metro line across city";
     modifier := fun city =>
       let city := Snap.set_transitScore (Snap.transitScore city + 15)%Q city in
       let city := Snap.set_trafficDensity (Snap.trafficDensity city * 0.85)%Q city in
       let city := Snap.set_carbonFootprint (Snap.carbonFootprint city * 0.9)%Q city in
       city |}.

Definition green_expansion : Scenario :=
  {| name := "Green Expansion";
     description := "Convert 10% industrial to parks";
     modifier := fun city =>
       let city := Snap.set_greenCoverage (Snap.greenCoverage city + 10)%Q city in
       let city := Snap.set_airQuality (Snap.airQuality city + 12)%Q city in
       let city := Snap.set_sustainabilityScore (Snap.sustainabilityScore city + 8)%Q city in
       city |}.

Definition renewable_energy : Scenario :=
  {| name := "100% Renewable";
     description := "Switch to renewable energy";
     modifier := fun city =>
       let city := Snap.set_carbonFootprint (Snap.carbonFootprint city * 0.3)%Q city in
       let city := Snap.set_energyEfficiency (Snap.energyEfficiency city + 20)%Q city in
       let city := Snap.set_sustainabilityScore (Snap.sustainabilityScore city + 15)%Q city in
       city |}.

(** The own keys of the [SCENARIOS] object.  The members it inherits are
    accounted for in [SCENARIOS_lookup]. *)
Definition SCENARIOS : gmap string Scenario :=
  <["population-growth" := population_growth]>
  (<["add-transit" := add_transit]>
  (<["green-expansion" := green_expansion]>
  (<["renewable-energy" := renewable_energy]> ∅))).

(** ** The simulator *)

(** An entry of [this.scenarios]. *)
Module Applied.
Record t := mk {
  id : string;
  name : string;
  appliedAt : Z
}.
End Applied.

Record Simulator := mkSimulator {
  city : CityModel;
  isRunning : bool;
  currentYear : Z;
  baseYear : Z;
  targetYear : Z;
  speed : Q;
  scenarios : list Applied.t;
  baselineStats : Stats;
  baselineDistribution : Distribution
}.

(** [new Simulator(cityModel)]: year 2025, baseline saved from the city. *)
Definition newSimulator (cityModel : CityModel) : Simulator :=
  {| city := cityModel;
     isRunning := false;
     currentYear := 2025;
     baseYear := 2025;
     targetYear := 2025;
     speed := 1;
     scenarios := [];
     baselineStats := stats cityModel;
     baselineDistribution := distribution cityModel |}.

Definition with_stats (st : Stats) (sim : Simulator) : Simulator :=
  {| city := {| stats := st; distribution := distribution (city sim) |};
     isRunning := isRunning sim;
     currentYear := currentYear sim;
     baseYear := baseYear sim;
     targetYear := targetYear sim;
     speed := speed sim;
     scenarios := scenarios sim;
     baselineStats := baselineStats sim;
     baselineDistribution := baselineDistribution sim |}.

Definition with_isRunning (b : bool) (sim : Simulator) : Simulator :=
  {| city := city sim;
     isRunning := b;
     currentYear := currentYear sim;
     baseYear := baseYear sim;
     targetYear := targetYear sim;
     speed := speed sim;
     scenarios := scenarios sim;
     baselineStats := baselineStats sim;
     baselineDistribution := baselineDistribution sim |}.

Definition with_currentYear (y : Z) (sim : Simulator) : Simulator :=
  {| city := city sim;
     isRunning := isRunning sim;
     currentYear := y;
     baseYear := baseYear sim;
     targetYear := targetYear sim;
     speed := speed sim;
     scenarios := scenarios sim;
     baselineStats := baselineStats sim;
     baselineDistribution := baselineDistribution sim |}.

Definition with_scenarios (l : list Applied.t) (sim : Simulator) : Simulator :=
  {| city := city sim;
     isRunning := isRunning sim;
     currentYear := currentYear sim;
     baseYear := baseYear sim;
     targetYear := targetYear sim;
     speed := speed sim;
     scenarios := l;
     baselineStats := baselineStats sim;
     baselineDistribution := baselineDistribution sim |}.

(** What [applyScenario] returns when the scenario exists. *)
Record ScenarioResult := mkResult {
  before : Stats;
  after : Stats;
  scenario : Scenario
}.

(** The object literal passed to the modifier. *)
Definition snapshot_of (sim : Simulator) : Snap.t :=
  let st := stats (city sim) in
  {| Snap.population := population st;
     Snap.sustainabilityScore := sustainabilityScore st;
     Snap.carbonFootprint := carbonFootprint st;
     Snap.energyEfficiency := energyEfficiency st;
     Snap.greenCoverage := greenCoverage st;
     Snap.transitScore := transitScore st;
     Snap.walkability := walkability st;
     Snap.airQuality := airQuality st;
     Snap.trafficDensity := 50;
     Snap.energyDemand := energyConsumption st |}.

(** The [Object.assign] of [applyScenario]: seven keys are overwritten,
    [greenCoverage] and [energyConsumption] are not among them. *)
Definition write_back (modifiedStats : Snap.t) (st : Stats) : Stats :=
  {| population := rounded (js_or (Snap.population modifiedStats) (population st));
     sustainabilityScore :=
       round_clamped (js_or (Snap.sustainabilityScore modifiedStats) (sustainabilityScore st));
     carbonFootprint :=
       rounded (js_or (Snap.carbonFootprint modifiedStats) (carbonFootprint st));
     energyEfficiency :=
       round_clamped (js_or (Snap.energyEfficiency modifiedStats) (energyEfficiency st));
     greenCoverage := greenCoverage st;
     transitScore :=
       round_clamped (js_or (Snap.transitScore modifiedStats) (transitScore st));
     walkability :=
       round_clamped (js_or (Snap.walkability modifiedStats) (walkability st));
     airQuality :=
       round_clamped (js_or (Snap.airQuality modifiedStats) (airQuality st));
     energyConsumption := energyConsumption st |}.

(** [applyScenario(scenarioId)] for an id whose lookup gives a scenario of
    the catalog or [undefined]; [applyScenario_call] below adds the ids whose
    lookup gives an inherited member. *)
Definition applyScenario (scenarioId : string) (sim : Simulator)
  : option ScenarioResult * Simulator :=
  match SCENARIOS !! scenarioId with
  | None => (None, sim)
  | Some scenario =>
      let beforeStats := stats (city sim) in
      let modifiedStats := modifier scenario (snapshot_of sim) in
      let sim := with_stats (write_back modifiedStats (stats (city sim))) sim in
      let sim :=
        with_scenarios
          (scenarios sim ++
             [ {| Applied.id := scenarioId;
                  Applied.name := name scenario;
                  Applied.appliedAt := currentYear sim |} ])
          sim in
      (Some {| before := beforeStats; after := stats (city sim); scenario := scenario |},
       sim)
  end.

(** The catalog is an object literal, so [SCENARIOS[scenarioId]] also finds
    the members every object inherits from [Object.prototype].  These are
    functions (for [__proto__], the prototype object): truthy, and without a
    [modifier]. *)
Definition Object_prototype_keys : list string :=
  ["constructor"; "__proto__"; "hasOwnProperty"; "isPrototypeOf";
   "propertyIsEnumerable"; "toLocaleString"; "toString"; "valueOf";
   "__defineGetter__"; "__defineSetter__"; "__lookupGetter__"; "__lookupSetter__"].

Inductive Lookup :=
| Own (scenario : Scenario)
| Inherited
| Undefined.

Definition SCENARIOS_lookup (scenarioId : string) : Lookup :=
  match SCENARIOS !! scenarioId with
  | Some scenario => Own scenario
  | None =>
      if existsb (String.eqb scenarioId) Object_prototype_keys then Inherited
      else Undefined
  end.

(** How a call of [applyScenario] ends: it returns, or it raises the
    [TypeError] of calling [scenario.modifier] when that is [undefined].  The
    error is raised before anything is assigned. *)
Inductive Outcome :=
| Returns (result : option ScenarioResult) (sim : Simulator)
| TypeError (sim : Simulator).

Definition applyScenario_call (scenarioId : string) (sim : Simulator) : Outcome :=
  match SCENARIOS_lookup scenarioId with
  | Inherited => TypeError sim
  | Own _ | Undefined =>
      let '(result, sim) := applyScenario scenarioId sim in Returns result sim
  end.

(** [setTargetYear], [stop], [saveBaseline] and [reset]. *)
Definition setTargetYear (year : Z) (sim : Simulator) : Simulator :=
  {| city := city sim;
     isRunning := isRunning sim;
     currentYear := currentYear sim;
     baseYear := baseYear sim;
     targetYear := year;
     speed := speed sim;
     scenarios := scenarios sim;
     baselineStats := baselineStats sim;
     baselineDistribution := baselineDistribution sim |}.

Definition stop (sim : Simulator) : Simulator := with_isRunning false sim.

Definition saveBaseline (sim : Simulator) : Simulator :=
  {| city := city sim;
     isRunning := isRunning sim;
     currentYear := currentYear sim;
     baseYear := baseYear sim;
     targetYear := targetYear sim;
     speed := speed sim;
     scenarios := scenarios sim;
     baselineStats := stats (city sim);
     baselineDistribution := distribution (city sim) |}.

Definition reset (sim : Simulator) : Simulator :=
  {| city := {| stats := baselineStats sim; distribution := baselineDistribution sim |};
     isRunning := false;
     currentYear := baseYear sim;
     baseYear := baseYear sim;
     targetYear := targetYear sim;
     speed := speed sim;
     scenarios := [];
     baselineStats := baselineStats sim;
     baselineDistribution := baselineDistribution sim |}.

(** The four yearly formulas, as functions of the baseline and of
    [yearsSinceBase].  The power and the products are exact here; the code
    evaluates them in double precision, and where the exact product is a
    tie of [Math.round] (500000 at 2 years: 515112.5) the double can fall on
    the other side. *)
Definition growthRate : Q := 0.015.
Definition degradationRate : Q := 0.005.

Definition yearly_population (base : Stats) (yearsSinceBase : Z) : Q :=
  rounded (population base * Math_pow (1 + growthRate) yearsSinceBase).

Definition yearly_airQuality (base : Stats) (yearsSinceBase : Z) : Q :=
  Math_max 30
    (rounded (airQuality base * (1 - degradationRate * inject_Z yearsSinceBase * 0.5))).

Definition yearly_walkability (base : Stats) (yearsSinceBase : Z) : Q :=
  Math_max 20
    (rounded (walkability base * (1 - degradationRate * inject_Z yearsSinceBase * 0.3))).

Definition yearly_carbonFootprint (base : Stats) (yearsSinceBase : Z) : Q :=
  rounded (carbonFootprint base + inject_Z yearsSinceBase * 0.5).

(** The four assignments of [applyYearlyChanges] on a statistics record. *)
Definition yearly_update (base : Stats) (yearsSinceBase : Z) (st : Stats) : Stats :=
  {| population := yearly_population base yearsSinceBase;
     sustainabilityScore := sustainabilityScore st;
     carbonFootprint := yearly_carbonFootprint base yearsSinceBase;
     energyEfficiency := energyEfficiency st;
     greenCoverage := greenCoverage st;
     transitScore := transitScore st;
     walkability := yearly_walkability base yearsSinceBase;
     airQuality := yearly_airQuality base yearsSinceBase;
     energyConsumption := energyConsumption st |}.

Definition applyYearlyChanges (sim : Simulator) : Simulator :=
  let yearsSinceBase := currentYear sim - baseYear sim in
  with_stats (yearly_update (baselineStats sim) yearsSinceBase (stats (city sim))) sim.

(** [revertYearlyChanges]: at or before the base year the whole record is
    overwritten with the baseline, otherwise the yearly formulas run. *)
Definition revertYearlyChanges (sim : Simulator) : Simulator :=
  let yearsSinceBase := currentYear sim - baseYear sim in
  if yearsSinceBase <=? 0 then with_stats (baselineStats sim) sim
  else applyYearlyChanges sim.

(** One call of [onUpdate(currentYear, deepClone(stats))]. *)
Definition Update : Type := Z * Stats.

(** The body of the [while] loop of [simulateTo], up to its [await].
    [onUpdate] tells whether a callback was passed; its calls are logged. *)
Definition loop_body (direction : Z) (onUpdate : bool) (sim : Simulator)
  : Simulator * list Update :=
  let sim := with_currentYear (currentYear sim + direction) sim in
  let sim := if 0 <? direction then applyYearlyChanges sim else revertYearlyChanges sim in
  (sim, if onUpdate then [(currentYear sim, stats (city sim))] else []).

(** The loop condition [currentYear !== targetYear && isRunning]. *)
Definition loop_cond (target : Z) (sim : Simulator) : bool :=
  negb (currentYear sim =? target) && isRunning sim.

(** The [while] loop of one call, run without interference between its
    iterations: no [stop], [reset] or second call during its [await]s (their
    effect on a run is modelled by [simulateTo_stopped]).  [None] when
    [fuel] iterations were not enough to leave the loop. *)
Fixpoint loop (fuel : nat) (direction target : Z) (onUpdate : bool) (sim : Simulator)
  : option (Simulator * list Update) :=
  if loop_cond target sim then
    match fuel with
    | O => None
    | S fuel =>
        let '(sim, u) := loop_body direction onUpdate sim in
        match loop fuel direction target onUpdate sim with
        | Some (sim, us) => Some (sim, u ++ us)
        | None => None
        end
    end
  else Some (sim, []).

Definition direction_to (target : Z) (sim : Simulator) : Z :=
  if currentYear sim <? target then 1 else -1.

Definition simulateTo_fuel (fuel : nat) (target : Z) (onUpdate : bool) (sim : Simulator)
  : option (Simulator * list Update) :=
  if isRunning sim then Some (sim, [])
  else
    let direction := direction_to target sim in
    match loop fuel direction target onUpdate (with_isRunning true sim) with
    | Some (sim, us) => Some (with_isRunning false sim, us)
    | None => None
    end.

(** [simulateTo(targetYear, onUpdate)] run to completion: the number of
    iterations is the distance to the target ([simulateTo_fuel_enough]). *)
Definition simulateTo (target : Z) (onUpdate : bool) (sim : Simulator)
  : Simulator * list Update :=
  match simulateTo_fuel (Z.abs_nat (target - currentYear sim)) target onUpdate sim with
  | Some r => r
  | None => (sim, [])
  end.

(** A sequence of [simulateTo] calls, each run to completion before the
    next one starts. *)
Definition run_path (targets : list Z) (sim : Simulator) : Simulator :=
  fold_left (fun sim target => fst (simulateTo target false sim)) targets sim.

(** ** The metrics calculator: zone distribution *)

Module ZoneType.
Record t := mk {
  name : string;
  color : string;
  population : Z;
  energy : Z;
  sustainability : Z
}.
End ZoneType.

Definition ZONE_TYPES (zone : Zone.t) : ZoneType.t :=
  match zone with
  | Zone.empty => ZoneType.mk "Empty" "#1f2937" 0 0 0
  | Zone.residential => ZoneType.mk "Residential" "#3b82f6" 1000 50 60
  | Zone.commercial => ZoneType.mk "Commercial" "#f59e0b" 200 150 40
  | Zone.industrial => ZoneType.mk "Industrial" "#6b7280" 100 300 20
  | Zone.green => ZoneType.mk "Green Space" "#22c55e" 0 (-20) 100
  | Zone.transit => ZoneType.mk "Transit Hub" "#ec4899" 50 80 80
  | Zone.road => ZoneType.mk "Road" "#374151" 0 10 30
  end.

(** [distribution[zone]]. *)
Definition count_of (d : Distribution) (zone : Zone.t) : Z :=
  match zone with
  | Zone.empty => n_empty d
  | Zone.residential => n_residential d
  | Zone.commercial => n_commercial d
  | Zone.industrial => n_industrial d
  | Zone.green => n_green d
  | Zone.transit => n_transit d
  | Zone.road => n_road d
  end.

(** [Object.values(distribution)]. *)
Definition values (d : Distribution) : list Z :=
  [n_empty d; n_residential d; n_commercial d; n_industrial d;
   n_green d; n_transit d; n_road d].

Record ZoneChart := mkChart {
  labels : list string;
  data : list Z;
  colors : list string
}.

Definition zones : list Zone.t :=
  [Zone.residential; Zone.commercial; Zone.industrial; Zone.green; Zone.transit; Zone.road].

(** [Math.round((count / total) * 100)] over exact arithmetic. *)
Definition share (count total : Z) : Z :=
  Math_round ((inject_Z count / inject_Z total) * 100).

(** The same expression in IEEE double precision, as the code evaluates it.
    [double_of_Z] is the double of an integer (exact below 2^53, which
    covers every cell count), [Q_of_double] the exact value of a finite
    double, so that [Math.round] is applied to the double itself.  No
    infinity or NaN arises here: the denominator is not 0 where a share is
    computed. *)
Definition double_of_Z (z : Z) : PrimFloat.float :=
  if 0 <=? z then PrimFloat.of_uint63 (Uint63.of_Z z)
  else PrimFloat.opp (PrimFloat.of_uint63 (Uint63.of_Z (- z))).

Definition Q_of_double (x : PrimFloat.float) : Q :=
  match FloatOps.Prim2SF x with
  | SpecFloat.S754_finite s m e =>
      let v := (inject_Z (Zpos m) * Qpower 2 e)%Q in
      if s then Qopp v else v
  | _ => 0%Q
  end.

Definition share_double (count total : Z) : Z :=
  Math_round
    (Q_of_double
       (PrimFloat.mul (PrimFloat.div (double_of_Z count) (double_of_Z total))
                      (double_of_Z 100))).

(** [getZoneDistribution], with the computation of one share, [share_of],
    left open. *)
Definition getZoneDistribution_with (share_of : Z -> Z -> Z) (c : CityModel) : ZoneChart :=
  let d := distribution c in
  let total := fold_left (fun a b => a + b) (values d) 0 - n_empty d in
  if total =? 0 then {| labels := []; data := []; colors := [] |}
  else
    fold_left
      (fun acc zone =>
         let count := count_of d zone in
         if 0 <? count then
           {| labels := labels acc ++ [ZoneType.name (ZONE_TYPES zone)];
              data := data acc ++ [share_of count total];
              colors := colors acc ++ [ZoneType.color (ZONE_TYPES zone)] |}
         else acc)
      zones
      {| labels := []; data := []; colors := [] |}.

(** Over exact arithmetic, and in double precision. *)
Definition getZoneDistribution (c : CityModel) : ZoneChart :=
  getZoneDistribution_with share c.

Definition getZoneDistribution_double (c : CityModel) : ZoneChart :=
  getZoneDistribution_with share_double c.

(** ** The simulator: projection and timeline *)

Module Projection.
Record t := mk {
  year : Z;
  population : Q;
  sustainabilityScore : Q;
  carbonFootprint : Q
}.
End Projection.

(** [getProjection(targetYear)]: computed from the baseline alone. *)
Definition getProjection (year : Z) (sim : Simulator) : Projection.t :=
  let yearsSinceBase := year - baseYear sim in
  let growthRate := 0.015%Q in
  {| Projection.year := year;
     Projection.population :=
       rounded (population (baselineStats sim) * Math_pow (1 + growthRate) yearsSinceBase);
     Projection.sustainabilityScore :=
       Math_max 0 (sustainabilityScore (baselineStats sim) - inject_Z yearsSinceBase * 0.5);
     Projection.carbonFootprint :=
       (carbonFootprint (baselineStats sim) + inject_Z yearsSinceBase * 0.5)%Q |}.

Module Event.
Record t := mk {
  year : Z;
  event : string;
  type : string
}.
End Event.

(** [Array.prototype.sort] with the comparator [(a, b) => a.year - b.year].
    The sort is stable, so its result is the one of any stable sort by year;
    it is written here as an insertion sort that puts an event before the
    later events of the same year. *)
Fixpoint insert_by_year (e : Event.t) (l : list Event.t) : list Event.t :=
  match l with
  | [] => [e]
  | x :: l' =>
      if Event.year e <=? Event.year x then e :: l else x :: insert_by_year e l'
  end.

Definition sort_by_year (l : list Event.t) : list Event.t :=
  fold_right insert_by_year [] l.

(** The array that [getTimeline] builds before sorting it. *)
Definition timeline_events (sim : Simulator) : list Event.t :=
  [Event.mk (baseYear sim) "Baseline" "start"]
  ++ map (fun s => Event.mk (Applied.appliedAt s) (Applied.name s) "scenario")
         (scenarios sim)
  ++ [Event.mk (currentYear sim) "Current" "current"].

Definition getTimeline (sim : Simulator) : list Event.t :=
  sort_by_year (timeline_events sim).

(** ** The simulator: a run that [stop] cuts short *)

(** At most [k] iterations of the [while] loop of [simulateTo]. *)
Fixpoint iterations (k : nat) (direction target : Z) (onUpdate : bool) (sim : Simulator)
  : Simulator * list Update :=
  match k with
  | O => (sim, [])
  | S k =>
      if loop_cond target sim then
        let '(sim, u) := loop_body direction onUpdate sim in
        let '(sim, us) := iterations k direction target onUpdate sim in
        (sim, u ++ us)
      else (sim, [])
  end.

(** [simulateTo(targetYear, onUpdate)] when [stop()] is called while the
    loop sleeps after its [k]-th iteration: the next loop check finds the
    flag cleared, the loop is left and the flag is cleared once more. *)
Definition simulateTo_stopped (k : nat) (target : Z) (onUpdate : bool) (sim : Simulator)
  : Simulator * list Update :=
  if isRunning sim then (sim, [])
  else
    let direction := direction_to target sim in
    let '(sim, us) := iterations k direction target onUpdate (with_isRunning true sim) in
    (with_isRunning false (stop sim), us).

(** ** The metrics calculator: ratings, comparison, recommendations *)

(** The status strings ['poor'], ['fair'], ['good'], ['excellent']. *)
Inductive Rating := Poor | Fair | Good | Excellent.

Module Thresholds.
Record t := mk {
  poor : Q;
  fair : Q;
  good : Q;
  excellent : Q
}.
End Thresholds.

(** [METRIC_THRESHOLDS] of constants.js. *)
Module METRIC_THRESHOLDS.
Definition sustainability : Thresholds.t := Thresholds.mk 40 60 75 90.
Definition greenCoverage : Thresholds.t := Thresholds.mk 10 20 30 40.
Definition transitScore : Thresholds.t := Thresholds.mk 30 50 70 85.
Definition walkability : Thresholds.t := Thresholds.mk 30 50 70 85.
Definition energyEfficiency : Thresholds.t := Thresholds.mk 40 60 75 90.
End METRIC_THRESHOLDS.

(** [a < b] on numbers. *)
Definition Qlt_bool (a b : Q) : bool := negb (Qle_bool b a).

Definition getSustainabilityScore (c : CityModel) : Q := sustainabilityScore (stats c).

Definition getSustainabilityRating (c : CityModel) : Rating :=
  let score := getSustainabilityScore c in
  let excellent := Thresholds.excellent METRIC_THRESHOLDS.sustainability in
  let good := Thresholds.good METRIC_THRESHOLDS.sustainability in
  let fair := Thresholds.fair METRIC_THRESHOLDS.sustainability in
  if Qle_bool excellent score then Excellent
  else if Qle_bool good score then Good
  else if Qle_bool fair score then Fair
  else Poor.

Module AirQualityView.
Record t := mk {
  value : Q;
  label : string;
  status : Rating
}.
End AirQualityView.

Definition getAirQuality (c : CityModel) : AirQualityView.t :=
  let aq := airQuality (stats c) in
  if Qle_bool 80 aq then AirQualityView.mk aq "Excellent" Excellent
  else if Qle_bool 60 aq then AirQualityView.mk aq "Good" Good
  else if Qle_bool 40 aq then AirQualityView.mk aq "Moderate" Fair
  else AirQualityView.mk aq "Poor" Poor.

Definition getPopulation (c : CityModel) : Q := population (stats c).

Module Comparison.
Record t := mk {
  sustainabilityChange : Q;
  carbonChange : Q;
  greenChange : Q;
  transitChange : Q;
  walkabilityChange : Q;
  populationChange : Q
}.
End Comparison.

(** [Metrics.compare(before, after)]. *)
Definition compare (before after : Stats) : Comparison.t :=
  {| Comparison.sustainabilityChange :=
       (sustainabilityScore after - sustainabilityScore before)%Q;
     Comparison.carbonChange := (carbonFootprint after - carbonFootprint before)%Q;
     Comparison.greenChange := (greenCoverage after - greenCoverage before)%Q;
     Comparison.transitChange := (transitScore after - transitScore before)%Q;
     Comparison.walkabilityChange := (walkability after - walkability before)%Q;
     Comparison.populationChange := (population after - population before)%Q |}.

Module Recommendation.
Record t := mk {
  title : string;
  description : string;
  impact : string
}.
End Recommendation.

Definition rec_green : Recommendation.t :=
  {| Recommendation.title := "Increase Green Spaces";
     Recommendation.description :=
       "Add more parks and green areas to improve air quality and sustainability.";
     Recommendation.impact := "+10 Sustainability, +15 Air Quality" |}.

Definition rec_transit : Recommendation.t :=
  {| Recommendation.title := "Expand Public Transit";
     Recommendation.description :=
       "Add transit hubs and metro lines to reduce car dependency.";
     Recommendation.impact := "+12 Transit Score, -8% Carbon" |}.

Definition rec_walkability : Recommendation.t :=
  {| Recommendation.title := "Improve Walkability";
     Recommendation.description :=
       "Create pedestrian zones and mixed-use neighborhoods.";
     Recommendation.impact := "+15 Walkability, +8 Sustainability" |}.

Definition rec_balance : Recommendation.t :=
  {| Recommendation.title := "Balance Industry & Nature";
     Recommendation.description := "Convert some industrial zones to green spaces.";
     Recommendation.impact := "-15% Carbon, +12 Air Quality" |}.

Definition getRecommendations (c : CityModel) : list Recommendation.t :=
  let recommendations := [] in
  let recommendations :=
    if Qlt_bool (greenCoverage (stats c)) 25
    then recommendations ++ [rec_green] else recommendations in
  let recommendations :=
    if Qlt_bool (transitScore (stats c)) 60
    then recommendations ++ [rec_transit] else recommendations in
  let recommendations :=
    if Qlt_bool (walkability (stats c)) 50
    then recommendations ++ [rec_walkability] else recommendations in
  let recommendations :=
    if n_green (distribution c) <? n_industrial (distribution c)
    then recommendations ++ [rec_balance] else recommendations in
  recommendations.

(** ** Helper functions (helpers.js) *)

(** [clamp(value, min, max)]. *)
Definition clamp (value min max : Q) : Q := Math_min (Math_max value min) max.

(** [calculateSustainabilityScore(distribution)], over exact arithmetic. *)
Definition calculateSustainabilityScore (d : Distribution) : Z :=
  let residential := inject_Z (n_residential d) in
  let commercial := inject_Z (n_commercial d) in
  let industrial := inject_Z (n_industrial d) in
  let green := inject_Z (n_green d) in
  let transit := inject_Z (n_transit d) in
  let road := inject_Z (n_road d) in
  let total := (residential + commercial + industrial + green + transit + road)%Q in
  if Qeq_bool total 0 then 0
  else
    let greenWeight := 2.5%Q in
    let transitWeight := 2.0%Q in
    let residentialWeight := 1.0%Q in
    let commercialWeight := 0.8%Q in
    let roadWeight := 0.5%Q in
    let industrialWeight := 0.3%Q in
    let score :=
      (((green / total) * 100 * greenWeight +
        (transit / total) * 100 * transitWeight +
        (residential / total) * 100 * residentialWeight +
        (commercial / total) * 100 * commercialWeight +
        (road / total) * 100 * roadWeight +
        (industrial / total) * 100 * industrialWeight)
       / (greenWeight + transitWeight + residentialWeight + commercialWeight
          + roadWeight + industrialWeight))%Q in
    Math_round (clamp (score * 1.5) 0 100).

(** ** The layout generator: [adjustFromPrompt] (AIGenerator.js)

    Prompts are taken as ASCII text: [toLowerCase] maps [A-Z], and the
    white space of the regular expression is the ASCII white space. *)

Module Layout.
Record t := mk {
  residentialRatio : Q;
  commercialRatio : Q;
  industrialRatio : Q;
  greenRatio : Q;
  transitRatio : Q;
  roadRatio : Q
}.
End Layout.

Definition lower_ascii (a : ascii) : ascii :=
  let n := nat_of_ascii a in
  if (65 <=? n)%nat && (n <=? 90)%nat then ascii_of_nat (n + 32) else a.

Fixpoint toLowerCase (s : string) : string :=
  match s with
  | EmptyString => EmptyString
  | String a s' => String (lower_ascii a) (toLowerCase s')
  end.

(** [s.startsWith(p)] and [s.includes(sub)]. *)
Fixpoint starts_with (p s : string) : bool :=
  match p, s with
  | EmptyString, _ => true
  | String a p', String b s' => Ascii.eqb a b && starts_with p' s'
  | String _ _, EmptyString => false
  end.

Fixpoint includes (s sub : string) : bool :=
  starts_with sub s ||
  match s with
  | EmptyString => false
  | String _ s' => includes s' sub
  end.

Definition is_digit (a : ascii) : bool :=
  let n := nat_of_ascii a in (48 <=? n)%nat && (n <=? 57)%nat.

Definition is_space (a : ascii) : bool :=
  let n := nat_of_ascii a in ((9 <=? n)%nat && (n <=? 13)%nat) || (n =? 32)%nat.

(** The longest prefix of [s] whose characters satisfy [p], and the rest. *)
Fixpoint span (p : ascii -> bool) (s : string) : string * string :=
  match s with
  | EmptyString => (EmptyString, EmptyString)
  | String a s' =>
      if p a then let '(taken, rest) := span p s' in (String a taken, rest)
      else (EmptyString, s)
  end.

(** The suffix of [s] that starts at its first digit. *)
Fixpoint from_first_digit (s : string) : option string :=
  match s with
  | EmptyString => None
  | String a s' => if is_digit a then Some s else from_first_digit s'
  end.

Inductive Magnitude := Million | K | Thousand.

(** The regular expression that [adjustFromPrompt] matches against the
    lower-cased prompt: one or more digits (group 1), an optional comma, any
    digits (group 2), any white space, and optionally one of [million], [k],
    [thousand] (group 3, tried in that order).  Result: the three groups of
    the leftmost match.  Every part after the first digits may match the
    empty string, so the greedy choices are the match. *)
Definition popMatch (lower : string) : option (string * string * option Magnitude) :=
  match from_first_digit lower with
  | None => None
  | Some s =>
      let '(g1, s) := span is_digit s in
      let s := match s with
               | String a s' => if Ascii.eqb a ","%char then s' else s
               | EmptyString => s
               end in
      let '(g2, s) := span is_digit s in
      let '(_, s) := span is_space s in
      let g3 :=
        if starts_with "million" s then Some Million
        else if starts_with "k" s then Some K
        else if starts_with "thousand" s then Some Thousand
        else None in
      Some (g1, g2, g3)
  end.

(** [parseInt] of a string of decimal digits. *)
Definition parseInt (digits : string) : Z :=
  fold_left (fun n a => 10 * n + Z.of_nat (nat_of_ascii a - 48))
            (String.list_ascii_of_string digits) 0.

(** The population that [adjustFromPrompt] reads out of the prompt. *)
Definition prompt_population (lower : string) : option Z :=
  match popMatch lower with
  | None => None
  | Some (g1, g2, g3) =>
      let pop := parseInt (String.append g1 g2) in
      let pop := match g3 with Some Million => pop * 1000000 | _ => pop end in
      let pop := match g3 with Some K | Some Thousand => pop * 1000 | _ => pop end in
      Some pop
  end.

(** The keyword adjustments of [adjustFromPrompt], in their order. *)
Definition keyword_adjustments (lower : string) (params : Layout.t) : Layout.t :=
  let res := Layout.residentialRatio params in
  let com := Layout.commercialRatio params in
  let ind := Layout.industrialRatio params in
  let grn := Layout.greenRatio params in
  let tra := Layout.transitRatio params in
  let rd := Layout.roadRatio params in
  let grn := if includes lower "park" || includes lower "garden"
             then Math_min 0.5 (grn + 0.1) else grn in
  let grn := if includes lower "urban farm" || includes lower "agriculture"
             then Math_min 0.5 (grn + 0.15) else grn in
  let car_free := includes lower "car-free" || includes lower "pedestrian" in
  let tra := if car_free then Math_min 0.25 (tra + 0.1) else tra in
  let rd := if car_free then Math_max 0.02 (rd - 0.02) else rd in
  let tra := if includes lower "metro" || includes lower "subway"
             then Math_min 0.25 (tra + 0.05) else tra in
  let clean := includes lower "clean" || includes lower "no pollution" in
  let ind := if clean then Math_max 0 (ind - 0.05) else ind in
  let grn := if clean then Math_min 0.5 (grn + 0.05) else grn in
  let ind := if includes lower "manufacturing" || includes lower "industry"
             then Math_min 0.2 (ind + 0.05) else ind in
  let com := if includes lower "business" || includes lower "downtown"
             then Math_min 0.3 (com + 0.1) else com in
  let big := match prompt_population lower with
             | Some pop => 1000000 <? pop
             | None => false
             end in
  let res := if big then Math_min 0.45 (res + 0.1) else res in
  let tra := if big then Math_min 0.2 (tra + 0.05) else tra in
  Layout.mk res com ind grn tra rd.

(** The sum of the six ratios. *)
Definition ratio_total (p : Layout.t) : Q :=
  (Layout.residentialRatio p + Layout.commercialRatio p + Layout.industrialRatio p
   + Layout.greenRatio p + Layout.transitRatio p + Layout.roadRatio p)%Q.

(** The normalisation at the end of [adjustFromPrompt], over exact
    arithmetic. *)
Definition normalize_ratios (adjusted : Layout.t) : Layout.t :=
  let total := ratio_total adjusted in
  if Qlt_bool 0.95 total then
    let factor := (0.95 / total)%Q in
    Layout.mk (Layout.residentialRatio adjusted * factor)
              (Layout.commercialRatio adjusted * factor)
              (Layout.industrialRatio adjusted * factor)
              (Layout.greenRatio adjusted * factor)
              (Layout.transitRatio adjusted * factor)
              (Layout.roadRatio adjusted * factor)
  else adjusted.

(** [adjustFromPrompt(prompt, params)], on the six ratios of [params]; any
    other key of [params] is copied to the result as it is. *)
Definition adjustFromPrompt (prompt : string) (params : Layout.t) : Layout.t :=
  let lower := toLowerCase prompt in
  normalize_ratios (keyword_adjustments lower params).

(** * Properties *)

(** ** A concrete city used in the examples *)

Definition sample_stats : Stats :=
  {| population := 500000;
     sustainabilityScore := 50;
     carbonFootprint := 10;
     energyEfficiency := 60;
     greenCoverage := 30;
     transitScore := 50;
     walkability := 100;
     airQuality := 80;
     energyConsumption := 1000 |}.

Definition sample_distribution : Distribution :=
  {| n_empty := 0;
     n_residential := 40;
     n_commercial := 10;
     n_industrial := 5;
     n_green := 20;
     n_transit := 5;
     n_road := 20 |}.

Definition sample_city : CityModel :=
  {| stats := sample_stats; distribution := sample_distribution |}.

(** The engine two iterations into [simulateTo(2030)]: suspended at the
    [await], year 2027, running flag set. *)
Definition mid_run : Simulator :=
  fst (loop_body 1 true
         (fst (loop_body 1 true (with_isRunning true (newSimulator sample_city))))).

(** ** Vocabulary of the statements *)

(** The keys of the [Object.assign] literal of [applyScenario]. *)
Inductive Field :=
| Population | SustainabilityScore | CarbonFootprint | EnergyEfficiency
| TransitScore | Walkability | AirQuality.

(** [stats[f]]. *)
Definition stored (f : Field) (st : Stats) : Q :=
  match f with
  | Population => population st
  | SustainabilityScore => sustainabilityScore st
  | CarbonFootprint => carbonFootprint st
  | EnergyEfficiency => energyEfficiency st
  | TransitScore => transitScore st
  | Walkability => walkability st
  | AirQuality => airQuality st
  end.

(** [modifiedStats[f]]. *)
Definition produced (f : Field) (c : Snap.t) : Q :=
  match f with
  | Population => Snap.population c
  | SustainabilityScore => Snap.sustainabilityScore c
  | CarbonFootprint => Snap.carbonFootprint c
  | EnergyEfficiency => Snap.energyEfficiency c
  | TransitScore => Snap.transitScore c
  | Walkability => Snap.walkability c
  | AirQuality => Snap.airQuality c
  end.

(** The fields written through [Math.min(100, Math.max(0, _))]. *)
Definition is_bounded (f : Field) : bool :=
  match f with
  | Population | CarbonFootprint => false
  | _ => true
  end.

(** The statistics after a run that moved the clock from [currentYear sim]
    to the year [y]: the yearly formulas at [y] when the run went forward or
    ended after the base year, the baseline otherwise. *)
Definition final_stats (sim : Simulator) (y : Z) : Stats :=
  if (currentYear sim <? y) || (baseYear sim <? y)
  then yearly_update (baselineStats sim) (y - baseYear sim) (stats (city sim))
  else baselineStats sim.

(** The engine [sim] with its clock, statistics and running flag replaced. *)
Definition moved (sim : Simulator) (running : bool) (y : Z) (st : Stats) : Simulator :=
  with_isRunning running (with_currentYear y (with_stats st sim)).

(** The states a run goes through: the start, or a later year with the
    statistics [final_stats] gives for it. *)
Definition on_the_way (sim : Simulator) (target : Z) (s : Simulator) : Prop :=
  exists y st,
    s = moved sim true y st /\
    (direction_to target sim = 1 -> currentYear sim <= y <= target) /\
    (direction_to target sim = -1 -> target <= y <= currentYear sim) /\
    ((y = currentYear sim /\ st = stats (city sim)) \/
     (y <> currentYear sim /\ st = final_stats sim y)).

(** The fields of the statistics record that the yearly formulas do not
    assign. *)
Definition untouched (st' st : Stats) : Prop :=
  sustainabilityScore st' = sustainabilityScore st /\
  energyEfficiency st' = energyEfficiency st /\
  greenCoverage st' = greenCoverage st /\
  transitScore st' = transitScore st /\
  energyConsumption st' = energyConsumption st.

(** The zones of the fixed order whose count is positive. *)
Definition present (d : Distribution) : list Zone.t :=
  List.filter (fun zone => 0 <? count_of d zone) zones.

(** The four fields that the yearly formulas assign, and their values
    [yearsSinceBase] years from the baseline. *)
Definition governed (st : Stats) : Q * Q * Q * Q :=
  (population st, airQuality st, walkability st, carbonFootprint st).

Definition projected (base : Stats) (yearsSinceBase : Z) : Q * Q * Q * Q :=
  (yearly_population base yearsSinceBase, yearly_airQuality base yearsSinceBase,
   yearly_walkability base yearsSinceBase, yearly_carbonFootprint base yearsSinceBase).

(** An idle engine whose governed fields are those of its year whenever the
    year is after the base year. *)
Definition in_step (s : Simulator) : Prop :=
  isRunning s = false /\
  (baseYear s < currentYear s ->
   governed (stats (city s)) = projected (baselineStats s) (currentYear s - baseYear s)).

(** An engine as above that is not before its base year, and has the
    baseline values when at it. *)
Definition not_before_base (s : Simulator) : Prop :=
  in_step s /\ baseYear s <= currentYear s /\
  (currentYear s = baseYear s -> governed (stats (city s)) = governed (baselineStats s)).

(** A number that is an integer, and one that is an integer of [0, 100]. *)
Definition is_integer (x : Q) : Prop := (x == inject_Z (Qfloor x))%Q.

Definition bounded_metric (x : Q) : Prop := is_integer x /\ (0 <= x <= 100)%Q.

(** The invariant of the data model on a statistics record. *)
Definition well_formed (st : Stats) : Prop :=
  bounded_metric (sustainabilityScore st) /\
  bounded_metric (energyEfficiency st) /\
  bounded_metric (greenCoverage st) /\
  bounded_metric (transitScore st) /\
  bounded_metric (walkability st) /\
  bounded_metric (airQuality st) /\
  is_integer (population st) /\
  is_integer (carbonFootprint st) /\
  is_integer (energyConsumption st).

(** The engine [sim] while its run is at the year [y]. *)
Definition at_year (sim : Simulator) (y : Z) : Simulator :=
  if y =? currentYear sim then with_isRunning true sim
  else moved sim true y (final_stats sim y).

(** The years between the start of a run and its target, in the direction
    of travel. *)
Definition between (sim : Simulator) (target : Z) (y : Z) : Prop :=
  (direction_to target sim = 1 -> currentYear sim <= y <= target) /\
  (direction_to target sim = -1 -> target <= y <= currentYear sim).

(** The years a run from [currentYear sim] to [target] steps through, in the
    order of the steps. *)
Definition run_years (sim : Simulator) (target : Z) : list Z :=
  map (fun i => currentYear sim + direction_to target sim * Z.of_nat (S i))
      (seq 0 (Z.abs_nat (target - currentYear sim))).

(** What a caller does with an engine: apply a scenario, run to a year (to
    completion), reset. *)
Inductive Op :=
| Apply (scenarioId : string)
| Run (target : Z)
| Reset.

Definition exec_op (sim : Simulator) (op : Op) : Simulator :=
  match op with
  | Apply scenarioId => snd (applyScenario scenarioId sim)
  | Run target => fst (simulateTo target false sim)
  | Reset => reset sim
  end.

Definition exec (ops : list Op) (sim : Simulator) : Simulator :=
  fold_left exec_op ops sim.

(** The targets of the runs among [ops]. *)
Definition run_targets (ops : list Op) : list Z :=
  flat_map (fun op => match op with Run target => [target] | _ => [] end) ops.

(** The ids among [ops] that [applyScenario] finds in the catalog. *)
Definition applied_ids (ops : list Op) : list string :=
  flat_map (fun op =>
              match op with
              | Apply scenarioId =>
                  match SCENARIOS !! scenarioId with Some _ => [scenarioId] | None => [] end
              | _ => []
              end) ops.

(** The event of an applied scenario in the timeline. *)
Definition scenario_event (s : Applied.t) : Event.t :=
  Event.mk (Applied.appliedAt s) (Applied.name s) "scenario".

(** Events in the order of their years. *)
Definition by_year (a b : Event.t) : Prop := Event.year a <= Event.year b.

(** The order of the ratings. *)
Definition rank (r : Rating) : Z :=
  match r with Poor => 0 | Fair => 1 | Good => 2 | Excellent => 3 end.

(** ** Rounding and clamping *)

Lemma Math_round_Z (z : Z) : Math_round (inject_Z z) = z.
Proof.
  unfold Math_round.
  assert (Hlo : (z <= Qfloor (inject_Z z + 0.5))%Z).
  { rewrite <- (Qfloor_Z z) at 1. apply Qfloor_resp_le. lra. }
  assert (Hhi : (Qfloor (inject_Z z + 0.5) < z + 1)%Z).
  { rewrite Zlt_Qlt. apply Qle_lt_trans with (inject_Z z + 0.5)%Q.
    - apply Qfloor_le.
    - rewrite inject_Z_plus. change (inject_Z 1) with 1%Q. lra. }
  lia.
Qed.

Lemma Math_round_comp (x y : Q) : (x == y)%Q -> Math_round x = Math_round y.
Proof. intros H. unfold Math_round. apply Qfloor_comp. rewrite H. reflexivity. Qed.

Lemma Math_round_mono (x y : Q) : (x <= y)%Q -> (Math_round x <= Math_round y)%Z.
Proof. intros H. unfold Math_round. apply Qfloor_resp_le. lra. Qed.

Lemma Math_max_spec (a b : Q) :
  ((a <= b)%Q /\ Math_max a b = b) \/ ((b < a)%Q /\ Math_max a b = a).
Proof.
  unfold Math_max. destruct (Qle_bool a b) eqn:E.
  - left. split; [now apply Qle_bool_iff | reflexivity].
  - right. split; [| reflexivity].
    apply Qnot_le_lt. intros H. apply Qle_bool_iff in H. congruence.
Qed.

Lemma Math_min_spec (a b : Q) :
  ((a <= b)%Q /\ Math_min a b = a) \/ ((b < a)%Q /\ Math_min a b = b).
Proof.
  unfold Math_min. destruct (Qle_bool a b) eqn:E.
  - left. split; [now apply Qle_bool_iff | reflexivity].
  - right. split; [| reflexivity].
    apply Qnot_le_lt. intros H. apply Qle_bool_iff in H. congruence.
Qed.

(** The clamp of [applyScenario] lands in [0, 100]. *)
Lemma clamp_range (x : Q) : (0 <= Math_min 100 (Math_max 0 x) <= 100)%Q.
Proof.
  destruct (Math_max_spec 0 x) as [[H1 ->] | [H1 ->]];
    destruct (Math_min_spec 100 x) as [[H2 E2] | [H2 E2]];
    destruct (Math_min_spec 100 0) as [[H3 E3] | [H3 E3]];
    rewrite ?E2, ?E3; lra.
Qed.

Lemma clamp_id (x : Q) : (0 <= x <= 100)%Q -> (Math_min 100 (Math_max 0 x) == x)%Q.
Proof.
  intros [Hlo Hhi].
  destruct (Math_max_spec 0 x) as [[H1 ->] | [H1 ->]].
  - destruct (Math_min_spec 100 x) as [[H2 ->] | [H2 ->]]; lra.
  - destruct (Math_min_spec 100 0) as [[H2 ->] | [H2 ->]]; lra.
Qed.

Lemma round_clamped_range (x : Q) :
  exists z : Z, round_clamped x = inject_Z z /\ (0 <= z <= 100)%Z.
Proof.
  exists (Math_round (Math_min 100 (Math_max 0 x))). split; [reflexivity |].
  destruct (clamp_range x) as [Hlo Hhi]. split.
  - rewrite <- (Math_round_Z 0). now apply Math_round_mono.
  - rewrite <- (Math_round_Z 100). now apply Math_round_mono.
Qed.

(** A value that is already zero survives both write-backs. *)
Lemma rounded_zero (x : Q) : (x == 0)%Q -> (rounded x == x)%Q.
Proof.
  intros H. unfold rounded. rewrite (Math_round_comp x (inject_Z 0)) by exact H.
  rewrite Math_round_Z. now rewrite H.
Qed.

Lemma round_clamped_zero (x : Q) : (x == 0)%Q -> (round_clamped x == x)%Q.
Proof.
  intros H. unfold round_clamped.
  rewrite (Math_round_comp _ (inject_Z 0)).
  - rewrite Math_round_Z. now rewrite H.
  - rewrite clamp_id; [exact H | lra].
Qed.

(** ** The catalog has exactly four scenarios *)

Lemma SCENARIOS_known (scenarioId : string) (sc : Scenario) :
  SCENARIOS !! scenarioId = Some sc ->
  sc = population_growth \/ sc = add_transit \/
  sc = green_expansion \/ sc = renewable_energy.
Proof.
  unfold SCENARIOS. intros H.
  repeat (apply lookup_insert_Some in H; destruct H as [[_ <-] | [_ H]]; [tauto |]).
  rewrite lookup_empty in H. discriminate.
Qed.

Lemma SCENARIOS_dom :
  dom SCENARIOS =
  ({[ "population-growth"; "add-transit"; "green-expansion"; "renewable-energy" ]}
     : gset string).
Proof. unfold SCENARIOS. rewrite !dom_insert_L, dom_empty_L. set_solver. Qed.

(** ** applyScenario *)

Lemma write_back_stored (f : Field) (out : Snap.t) (st : Stats) :
  stored f (write_back out st) =
  (if is_bounded f then round_clamped else rounded) (js_or (produced f out) (stored f st)).
Proof. destruct f; reflexivity. Qed.

(** An id that is neither a key of the catalog nor an inherited member
    makes [applyScenario] return [null] and leave the whole engine state as
    it was. *)
Lemma applyScenario_call_undefined (scenarioId : string) (sim : Simulator) :
  SCENARIOS_lookup scenarioId = Undefined ->
  applyScenario_call scenarioId sim = Returns None sim.
Proof.
  intros H. unfold applyScenario_call. rewrite H.
  unfold SCENARIOS_lookup in H. unfold applyScenario.
  destruct (SCENARIOS !! scenarioId); [discriminate | reflexivity].
Qed.

(** C6 fails on the code for the ids that name a member inherited from
    [Object.prototype]: ["toString"] and ["constructor"] are not in the
    catalog, the lookup finds the inherited function, the guard lets it
    pass, and the call of its missing [modifier] raises a [TypeError]
    instead of returning [null].  The engine state is the one before the
    call. *)
Theorem applyScenario_inherited_key (sim : Simulator) :
  SCENARIOS !! "toString" = None /\
  applyScenario_call "toString" sim = TypeError sim /\
  SCENARIOS !! "constructor" = None /\
  applyScenario_call "constructor" sim = TypeError sim /\
  applyScenario_call "demolish-downtown" sim = Returns None sim.
Proof.
  assert (H1 : SCENARIOS_lookup "toString" = Inherited) by (vm_compute; reflexivity).
  assert (H2 : SCENARIOS_lookup "constructor" = Inherited) by (vm_compute; reflexivity).
  assert (H3 : SCENARIOS_lookup "demolish-downtown" = Undefined)
    by (vm_compute; reflexivity).
  unfold applyScenario_call. rewrite H1, H2, H3.
  repeat split; vm_compute; reflexivity.
Qed.

(** C1, as the code has it: [applyScenario] on a known id writes seven
    fields, the six of the claim and [carbonFootprint] (rounded, not
    clamped); [greenCoverage], [energyConsumption] and the zone distribution
    are the ones that keep their values, whatever the modifier produced. *)
Theorem applyScenario_written_fields (scenarioId : string) (sc : Scenario) (sim : Simulator) :
  SCENARIOS !! scenarioId = Some sc ->
  let st := stats (city sim) in
  let out := modifier sc (snapshot_of sim) in
  let sim' := snd (applyScenario scenarioId sim) in
  let st' := stats (city sim') in
  (forall f, stored f st' =
             (if is_bounded f then round_clamped else rounded)
               (js_or (produced f out) (stored f st))) /\
  carbonFootprint st' = rounded (js_or (Snap.carbonFootprint out) (carbonFootprint st)) /\
  greenCoverage st' = greenCoverage st /\
  energyConsumption st' = energyConsumption st /\
  distribution (city sim') = distribution (city sim).
Proof.
  intros H. unfold applyScenario. rewrite H. cbn.
  split; [| repeat split]. intros f. apply write_back_stored.
Qed.

Lemma applyScenario_written_fields_witness :
  let sim := newSimulator sample_city in
  let st' := stats (city (snd (applyScenario "green-expansion" sim))) in
  greenCoverage st' = greenCoverage (stats (city sim)) /\
  energyConsumption st' = energyConsumption (stats (city sim)).
Proof.
  intros sim st'.
  destruct (applyScenario_written_fields "green-expansion" green_expansion sim)
    as (_ & _ & Hg & He & _).
  - vm_compute. reflexivity.
  - split; [exact Hg | exact He].
Defined.

(** C1 as stated fails: applying [add-transit] at [carbonFootprint = 10]
    stores the [9] that the modifier computed. *)
Lemma applyScenario_persists_carbonFootprint :
  let sim := newSimulator sample_city in
  let sim' := snd (applyScenario "add-transit" sim) in
  (carbonFootprint (stats (city sim)) == 10)%Q /\
  (carbonFootprint (stats (city sim')) == 9)%Q /\
  (transitScore (stats (city sim')) == 65)%Q /\
  ~ (carbonFootprint (stats (city sim')) == carbonFootprint (stats (city sim)))%Q.
Proof. vm_compute. repeat split; discriminate. Qed.

Lemma rounded_integer (x : Q) : is_integer x -> (rounded x == x)%Q.
Proof.
  unfold is_integer, rounded. intros H.
  rewrite (Math_round_comp x (inject_Z (Qfloor x)) H), Math_round_Z. now symmetry.
Qed.

Lemma round_clamped_bounded (x : Q) :
  is_integer x -> (0 <= x <= 100)%Q -> (round_clamped x == x)%Q.
Proof.
  unfold is_integer, round_clamped. intros H Hx.
  rewrite (Math_round_comp _ x (clamp_id x Hx)).
  rewrite (Math_round_comp x (inject_Z (Qfloor x)) H), Math_round_Z. now symmetry.
Qed.

(** C3, as the code has it: for a known scenario and a field that
    [applyScenario] writes, a zero output of the modifier stores the value
    before the call, and any other output stores that output; either way the
    value is stored rounded, and clamped to [0, 100] when the field is a
    bounded metric.  The write-back does this for any modifier output, not
    only for the four of the catalog.  So the value kept for a zero output
    is the value before the call when that is an integer, within [0, 100]
    for a bounded metric. *)
Theorem applyScenario_falsy_fallback
  (scenarioId : string) (sc : Scenario) (sim : Simulator) (f : Field) :
  SCENARIOS !! scenarioId = Some sc ->
  let out := produced f (modifier sc (snapshot_of sim)) in
  let prior := stored f (stats (city sim)) in
  let final := stored f (stats (city (snd (applyScenario scenarioId sim)))) in
  final = (if is_bounded f then round_clamped else rounded)
            (if Qeq_bool out 0 then prior else out) /\
  (forall (modifiedStats : Snap.t) (st : Stats),
     stored f (write_back modifiedStats st)
     = (if is_bounded f then round_clamped else rounded)
         (if Qeq_bool (produced f modifiedStats) 0 then stored f st
          else produced f modifiedStats)) /\
  (forall (modifiedStats : Snap.t) (st : Stats),
     (produced f modifiedStats == 0)%Q ->
     is_integer (stored f st) ->
     (is_bounded f = true -> (0 <= stored f st <= 100)%Q) ->
     (stored f (write_back modifiedStats st) == stored f st)%Q).
Proof.
  intros H out prior final.
  assert (Hwb : forall (modifiedStats : Snap.t) (st : Stats),
             stored f (write_back modifiedStats st)
             = (if is_bounded f then round_clamped else rounded)
                 (if Qeq_bool (produced f modifiedStats) 0 then stored f st
                  else produced f modifiedStats)).
  { intros modifiedStats st. apply write_back_stored. }
  split; [| split].
  - subst final out prior. unfold applyScenario. rewrite H. cbn. apply Hwb.
  - exact Hwb.
  - intros modifiedStats st Hzero Hint Hrange. rewrite Hwb.
    replace (Qeq_bool (produced f modifiedStats) 0) with true
      by (symmetry; now apply Qeq_bool_iff).
    destruct (is_bounded f).
    + apply round_clamped_bounded; [exact Hint | now apply Hrange].
    + now apply rounded_integer.
Qed.

Lemma applyScenario_falsy_fallback_witness :
  let sim := newSimulator (mkCity (mkStats 500000 50 10 60 30 50 0 80 1000) sample_distribution) in
  stored Walkability (stats (city (snd (applyScenario "population-growth" sim))))
  = round_clamped (stored Walkability (stats (city sim))).
Proof.
  intros sim.
  destruct (applyScenario_falsy_fallback "population-growth" population_growth sim
              Walkability) as [H _].
  - vm_compute. reflexivity.
  - exact H.
Defined.

(** C3 as stated fails: with [transitScore = -15] the modifier of
    [add-transit] produces 0, the fallback takes the -15, and the clamp
    around it stores 0, which is not the value before the call. *)
Lemma applyScenario_fallback_negative_metric :
  let sim := newSimulator (mkCity (mkStats 500000 50 10 60 30 (-15) 100 80 1000)
                             sample_distribution) in
  let out := produced TransitScore (modifier add_transit (snapshot_of sim)) in
  let prior := stored TransitScore (stats (city sim)) in
  let final := stored TransitScore (stats (city (snd (applyScenario "add-transit" sim)))) in
  (out == 0)%Q /\ (prior == -15)%Q /\ (final == 0)%Q /\ ~ (final == prior)%Q.
Proof. vm_compute. repeat split; discriminate. Qed.

(** ** The stepping loop *)

Section Loop.

Variable target : Z.
Variable onUpdate : bool.

(** What one iteration leaves alone, and what it does to the year. *)
Lemma loop_body_engine (direction : Z) (sim : Simulator) :
  let sim' := fst (loop_body direction onUpdate sim) in
  isRunning sim' = isRunning sim /\
  currentYear sim' = currentYear sim + direction /\
  baseYear sim' = baseYear sim /\
  baselineStats sim' = baselineStats sim /\
  baselineDistribution sim' = baselineDistribution sim /\
  scenarios sim' = scenarios sim /\
  distribution (city sim') = distribution (city sim).
Proof.
  unfold loop_body, revertYearlyChanges, applyYearlyChanges.
  destruct (0 <? direction); cbn;
    [| destruct (currentYear sim + direction - baseYear sim <=? 0)]; cbn; tauto.
Qed.

(** The loop leaves when the year is the target: [n] iterations suffice
    when the target is [n] years away in the direction of travel. *)
Lemma loop_enough (direction : Z) :
  direction = 1 \/ direction = -1 ->
  forall (n : nat) (sim : Simulator) (fuel : nat),
    isRunning sim = true ->
    target - currentYear sim = direction * Z.of_nat n ->
    (n <= fuel)%nat ->
    exists r, loop fuel direction target onUpdate sim = Some r /\
              loop n direction target onUpdate sim = Some r.
Proof.
  intros Hdir. induction n as [| n IH]; intros sim fuel Hrun Hdist Hfuel.
  - assert (Hc : loop_cond target sim = false).
    { unfold loop_cond. replace (currentYear sim =? target) with true; [reflexivity |].
      symmetry. apply Z.eqb_eq. lia. }
    exists (sim, []). destruct fuel; cbn; rewrite Hc; split; reflexivity.
  - assert (Hc : loop_cond target sim = true).
    { unfold loop_cond. rewrite Hrun.
      replace (currentYear sim =? target) with false; [reflexivity |].
      symmetry. apply Z.eqb_neq. lia. }
    destruct fuel as [| fuel]; [lia |]. cbn [loop]. rewrite Hc.
    destruct (loop_body direction onUpdate sim) as [sim' u] eqn:Hb.
    pose proof (loop_body_engine direction sim) as Hs. rewrite Hb in Hs. cbn in Hs.
    destruct Hs as (Hr & Hy & _).
    destruct (IH sim' fuel) as ([sim'' us] & H1 & H2); [congruence | lia | lia |].
    exists (sim'', u ++ us). rewrite H1, H2. split; reflexivity.
Qed.

(** Invariants of the loop: a property kept by every iteration holds when
    the loop is left, and the loop condition is then false. *)
Lemma loop_invariant (P : Simulator -> Prop) (direction : Z) :
  (forall sim, P sim -> loop_cond target sim = true ->
               P (fst (loop_body direction onUpdate sim))) ->
  forall fuel sim r,
    P sim -> loop fuel direction target onUpdate sim = Some r ->
    P (fst r) /\ loop_cond target (fst r) = false.
Proof.
  intros Hstep. induction fuel as [| fuel IH]; intros sim r HP Hloop; cbn [loop] in Hloop.
  - destruct (loop_cond target sim) eqn:Hc; [discriminate |].
    injection Hloop as <-. split; assumption.
  - destruct (loop_cond target sim) eqn:Hc.
    + specialize (Hstep sim HP Hc).
      destruct (loop_body direction onUpdate sim) as [sim' u].
      cbv beta iota in Hloop. cbn [fst] in Hstep.
      destruct (loop fuel direction target onUpdate sim') as [[sim'' us] |] eqn:Hl;
        [| discriminate].
      injection Hloop as <-. apply (IH sim' (sim'', us)); assumption.
    + injection Hloop as <-. split; assumption.
Qed.

Lemma direction_to_cases (sim : Simulator) :
  (currentYear sim < target /\ direction_to target sim = 1) \/
  (target <= currentYear sim /\ direction_to target sim = -1).
Proof.
  unfold direction_to. destruct (currentYear sim <? target) eqn:E.
  - left. split; [now apply Z.ltb_lt | reflexivity].
  - right. split; [now apply Z.ltb_ge | reflexivity].
Qed.

(** [simulateTo] returns: its loop is left after [|target - currentYear|]
    iterations, and more fuel changes nothing. *)
Lemma simulateTo_fuel_enough (sim : Simulator) (fuel : nat) :
  (Z.abs_nat (target - currentYear sim) <= fuel)%nat ->
  simulateTo_fuel fuel target onUpdate sim = Some (simulateTo target onUpdate sim).
Proof.
  intros Hfuel. unfold simulateTo, simulateTo_fuel.
  destruct (isRunning sim) eqn:Hrun; [reflexivity |].
  destruct (loop_enough (direction_to target sim))
    with (n := Z.abs_nat (target - currentYear sim))
         (sim := with_isRunning true sim) (fuel := fuel)
    as (r & H1 & H2).
  - destruct (direction_to_cases sim) as [[_ ->] | [_ ->]]; tauto.
  - reflexivity.
  - cbn. destruct (direction_to_cases sim) as [[H ->] | [H ->]]; lia.
  - exact Hfuel.
  - rewrite H1, H2. destruct r. reflexivity.
Qed.

(** A run that was started, in terms of the state in which its loop was
    left. *)
Lemma simulateTo_started (P : Simulator -> Prop) (sim : Simulator) :
  isRunning sim = false ->
  P (with_isRunning true sim) ->
  (forall s, P s -> loop_cond target s = true ->
             P (fst (loop_body (direction_to target sim) onUpdate s))) ->
  exists s, P s /\ loop_cond target s = false /\
            fst (simulateTo target onUpdate sim) = with_isRunning false s.
Proof.
  intros Hrun HP Hstep.
  pose proof (simulateTo_fuel_enough sim _ (Nat.le_refl _)) as Hsim.
  unfold simulateTo_fuel in Hsim. rewrite Hrun in Hsim.
  destruct (loop _ (direction_to target sim) target onUpdate (with_isRunning true sim))
    as [[s us] |] eqn:Hl; [| discriminate].
  injection Hsim as Hsim.
  destruct (loop_invariant P _ Hstep _ _ _ HP Hl) as [HPs Hc].
  exists s. rewrite <- Hsim. cbn. auto.
Qed.

End Loop.

(** ** What a completed run leaves behind *)

Lemma yearly_update_twice (base : Stats) (e e' : Z) (st : Stats) :
  yearly_update base e (yearly_update base e' st) = yearly_update base e st.
Proof. reflexivity. Qed.

Section Run.

Variable sim : Simulator.
Variable target : Z.
Variable onUpdate : bool.

Lemma on_the_way_start : on_the_way sim target (with_isRunning true sim).
Proof.
  exists (currentYear sim), (stats (city sim)). repeat split.
  - destruct sim as [[? ?] ? ? ? ? ? ? ? ?]. reflexivity.
  - lia.
  - destruct (direction_to_cases target sim) as [[? ?] | [? ?]]; lia.
  - destruct (direction_to_cases target sim) as [[? ?] | [? ?]]; lia.
  - lia.
  - now left.
Qed.

Lemma on_the_way_step (s : Simulator) :
  on_the_way sim target s -> loop_cond target s = true ->
  on_the_way sim target (fst (loop_body (direction_to target sim) onUpdate s)).
Proof.
  intros (y & st & -> & Hfwd & Hbwd & Hst) Hc.
  assert (Hy : y <> target).
  { unfold loop_cond in Hc. cbn in Hc. apply andb_true_iff in Hc as [Hc _].
    apply negb_true_iff, Z.eqb_neq in Hc. exact Hc. }
  destruct (direction_to_cases target sim) as [[Hlt Hd] | [Hge Hd]]; rewrite Hd in *.
  - (* forward: the yearly formulas at the new year *)
    specialize (Hfwd eq_refl). clear Hbwd.
    exists (y + 1), (yearly_update (baselineStats sim) (y + 1 - baseYear sim) st).
    split; [reflexivity |]. split; [lia |]. split; [congruence |].
    right. split; [lia |]. unfold final_stats.
    replace (currentYear sim <? y + 1) with true by (symmetry; apply Z.ltb_lt; lia).
    cbn [orb]. destruct Hst as [[_ ->] | [Hne ->]]; [reflexivity |].
    unfold final_stats.
    replace (currentYear sim <? y) with true by (symmetry; apply Z.ltb_lt; lia).
    reflexivity.
  - (* backward: the baseline at or before the base year *)
    specialize (Hbwd eq_refl). clear Hfwd.
    exists (y + -1), (final_stats sim (y + -1)).
    split; [| split; [congruence | split; [lia | right; split; [lia | reflexivity]]]].
    unfold loop_body, revertYearlyChanges, final_stats. cbn.
    replace (currentYear sim <? y + -1) with false by (symmetry; apply Z.ltb_ge; lia).
    cbn [orb]. destruct (y + -1 - baseYear sim <=? 0) eqn:E.
    + replace (baseYear sim <? y + -1) with false by (symmetry; apply Z.ltb_ge; lia).
      reflexivity.
    + apply Z.leb_gt in E.
      replace (baseYear sim <? y + -1) with true by (symmetry; apply Z.ltb_lt; lia).
      destruct Hst as [[_ ->] | [Hne ->]]; [reflexivity |].
      unfold final_stats.
      replace (baseYear sim <? y) with true by (symmetry; apply Z.ltb_lt; lia).
      rewrite orb_true_r. reflexivity.
Qed.

(** A run that moves the clock ends at the target year with the statistics
    of [final_stats] and the running flag cleared; nothing else changes. *)
Lemma simulateTo_closed_form :
  isRunning sim = false -> target <> currentYear sim ->
  fst (simulateTo target onUpdate sim) = moved sim false target (final_stats sim target).
Proof.
  intros Hrun Hne.
  destruct (simulateTo_started target onUpdate (on_the_way sim target) sim Hrun
              on_the_way_start on_the_way_step)
    as (s & (y & st & -> & _ & _ & Hst) & Hc & ->).
  unfold loop_cond in Hc. cbn in Hc. rewrite andb_true_r in Hc.
  apply negb_false_iff, Z.eqb_eq in Hc. subst y.
  destruct Hst as [[? _] | [_ ->]]; [congruence | reflexivity].
Qed.

(** A run towards the current year does not enter its loop. *)
Lemma simulateTo_no_step :
  isRunning sim = false -> target = currentYear sim ->
  forall fuel, simulateTo_fuel fuel target onUpdate sim = Some (sim, []).
Proof.
  intros Hrun -> fuel. unfold simulateTo_fuel. rewrite Hrun.
  assert (Hc : loop_cond (currentYear sim) (with_isRunning true sim) = false).
  { unfold loop_cond. cbn. now rewrite Z.eqb_refl. }
  destruct fuel; cbn [loop]; rewrite Hc;
    destruct sim as [? [|] ? ? ? ? ? ? ?]; try discriminate; reflexivity.
Qed.

(** The call that finds a run active, and the call towards the current
    year, as results of [simulateTo]. *)
Lemma simulateTo_when_running :
  isRunning sim = true -> simulateTo target onUpdate sim = (sim, []).
Proof. intros Hrun. unfold simulateTo, simulateTo_fuel. now rewrite Hrun. Qed.

Lemma simulateTo_no_move :
  isRunning sim = false -> target = currentYear sim ->
  simulateTo target onUpdate sim = (sim, []).
Proof.
  intros Hrun Heq. unfold simulateTo. now rewrite (simulateTo_no_step Hrun Heq).
Qed.

End Run.

(** ** simulateTo *)

(** C7: while a run is active (the running flag is set) another
    [simulateTo] call returns at once, whatever its target: the engine state
    is the one it was called in (year, statistics and everything else) and
    [onUpdate] is not called. *)
Theorem simulateTo_reentrant (sim : Simulator) (target : Z) (onUpdate : bool) :
  isRunning sim = true ->
  (forall fuel, simulateTo_fuel fuel target onUpdate sim = Some (sim, [])) /\
  simulateTo target onUpdate sim = (sim, []).
Proof.
  intros Hrun. unfold simulateTo, simulateTo_fuel. rewrite Hrun. split; reflexivity.
Qed.

Lemma simulateTo_reentrant_witness :
  isRunning mid_run = true /\ simulateTo 2040 true mid_run = (mid_run, []).
Proof.
  split; [reflexivity |].
  apply (simulateTo_reentrant mid_run 2040 true). reflexivity.
Defined.

(** C10, as the code has it: when no run is active, [simulateTo] towards the
    current year computes the direction [-1], performs no iteration, leaves
    the engine state (statistics and year included) as it was, calls
    [onUpdate] never, and the running flag is false afterwards. *)
Theorem simulateTo_current_year (sim : Simulator) (onUpdate : bool) :
  isRunning sim = false ->
  direction_to (currentYear sim) sim = -1 /\
  (forall fuel, simulateTo_fuel fuel (currentYear sim) onUpdate sim = Some (sim, [])) /\
  simulateTo (currentYear sim) onUpdate sim = (sim, []) /\
  isRunning (fst (simulateTo (currentYear sim) onUpdate sim)) = false.
Proof.
  intros Hrun.
  pose proof (simulateTo_no_step sim (currentYear sim) onUpdate Hrun eq_refl) as Hno.
  pose proof (simulateTo_no_move sim (currentYear sim) onUpdate Hrun eq_refl) as Hsim.
  repeat split.
  - unfold direction_to. now rewrite Z.ltb_irrefl.
  - exact Hno.
  - exact Hsim.
  - rewrite Hsim. exact Hrun.
Qed.

Lemma simulateTo_current_year_witness :
  simulateTo 2025 true (newSimulator sample_city) = (newSimulator sample_city, []).
Proof.
  apply (simulateTo_current_year (newSimulator sample_city) true). reflexivity.
Defined.

(** C10 as stated, for every engine state, fails: called towards the
    current year while a run is active, [simulateTo] returns with the
    running flag still set. *)
Lemma simulateTo_current_year_while_running :
  currentYear mid_run = 2027 /\
  isRunning (fst (simulateTo 2027 true mid_run)) = true.
Proof. vm_compute. split; reflexivity. Qed.

(** C2, as the code has it: a forward run, and a backward run whose target
    is after the base year, assign only [population], [airQuality],
    [walkability] and [carbonFootprint]; [sustainabilityScore],
    [energyEfficiency], [greenCoverage], [transitScore], [energyConsumption]
    and the zone distribution keep the values they had before the run. *)
Theorem simulateTo_frame (sim : Simulator) (target : Z) (onUpdate : bool) :
  currentYear sim < target \/ baseYear sim < target ->
  let sim' := fst (simulateTo target onUpdate sim) in
  untouched (stats (city sim')) (stats (city sim)) /\
  distribution (city sim') = distribution (city sim).
Proof.
  intros Hdir sim'. subst sim'.
  destruct (isRunning sim) eqn:Hrun.
  { rewrite (simulateTo_when_running sim target onUpdate Hrun).
    unfold untouched. cbn. tauto. }
  destruct (Z.eq_dec target (currentYear sim)) as [-> | Hne].
  { rewrite (simulateTo_no_move sim (currentYear sim) onUpdate Hrun eq_refl).
    unfold untouched. cbn. tauto. }
  rewrite (simulateTo_closed_form sim target onUpdate Hrun Hne).
  unfold final_stats.
  replace ((currentYear sim <? target) || (baseYear sim <? target)) with true.
  - unfold untouched. cbn. tauto.
  - symmetry. apply orb_true_iff.
    destruct Hdir; [left | right]; now apply Z.ltb_lt.
Qed.

Lemma simulateTo_frame_witness :
  let sim := snd (applyScenario "renewable-energy" (newSimulator sample_city)) in
  energyEfficiency (stats (city (fst (simulateTo 2031 true sim))))
  = energyEfficiency (stats (city sim)).
Proof.
  intros sim.
  destruct (simulateTo_frame sim 2031 true) as [(_ & He & _) _].
  - left. reflexivity.
  - exact He.
Defined.

(** The same frame, iteration by iteration: it also covers a run that
    [stop] cuts short. *)
Lemma loop_body_frame (direction : Z) (onUpdate : bool) (sim : Simulator) :
  0 < direction \/ baseYear sim < currentYear sim + direction ->
  untouched (stats (city (fst (loop_body direction onUpdate sim)))) (stats (city sim)).
Proof.
  intros Hdir. unfold loop_body, revertYearlyChanges, untouched. cbn [fst].
  destruct (0 <? direction) eqn:E; [cbn; tauto |].
  apply Z.ltb_ge in E. cbn.
  replace (currentYear sim + direction - baseYear sim <=? 0) with false
    by (symmetry; apply Z.leb_gt; lia).
  cbn. tauto.
Qed.

(** After [stop] the loop is left at its next check, without a step. *)
Lemma loop_stopped (fuel : nat) (direction target : Z) (onUpdate : bool) (sim : Simulator) :
  loop fuel direction target onUpdate (stop sim) = Some (stop sim, []).
Proof.
  assert (Hc : loop_cond target (stop sim) = false).
  { unfold loop_cond. cbn. apply andb_false_r. }
  destruct fuel; cbn [loop]; now rewrite Hc.
Qed.

(** [reset] puts the baseline back and is idempotent. *)
Lemma reset_idempotent (sim : Simulator) : reset (reset sim) = reset sim.
Proof. reflexivity. Qed.

(** A backward run that moves the clock to the base year or before it
    leaves the baseline record, every field of it. *)
Lemma simulateTo_backward_to_base (sim : Simulator) (target : Z) (onUpdate : bool) :
  isRunning sim = false -> target < currentYear sim -> target <= baseYear sim ->
  stats (city (fst (simulateTo target onUpdate sim))) = baselineStats sim.
Proof.
  intros Hrun Hlt Hle.
  rewrite (simulateTo_closed_form sim target onUpdate Hrun) by lia.
  unfold final_stats.
  replace (currentYear sim <? target) with false by (symmetry; apply Z.ltb_ge; lia).
  replace (baseYear sim <? target) with false by (symmetry; apply Z.ltb_ge; lia).
  reflexivity.
Qed.

(** C2 as stated, for any backward run, fails: [green-expansion] raises
    [sustainabilityScore] from 50 to 58, a run to 2026 keeps the 58, and the
    run back to the base year 2025 puts the baseline 50 back. *)
Lemma simulateTo_backward_drops_scenario :
  let sim1 := snd (applyScenario "green-expansion" (newSimulator sample_city)) in
  let sim2 := fst (simulateTo 2026 true sim1) in
  let sim3 := fst (simulateTo 2025 true sim2) in
  (sustainabilityScore (stats (city sim2)) == 58)%Q /\
  (sustainabilityScore (stats (city sim3)) == 50)%Q /\
  ~ (sustainabilityScore (stats (city sim3)) == sustainabilityScore (stats (city sim2)))%Q.
Proof. vm_compute. repeat split; discriminate. Qed.




(** ** Zone distribution view *)

Lemma sum_values (d : Distribution) :
  fold_left (fun a b => a + b) (values d) 0
  = n_empty d + n_residential d + n_commercial d + n_industrial d
    + n_green d + n_transit d + n_road d.
Proof. cbn. lia. Qed.

Lemma getZoneDistribution_with_closed_form (share_of : Z -> Z -> Z) (c : CityModel) :
  let d := distribution c in
  let denominator :=
    n_empty d + n_residential d + n_commercial d + n_industrial d
    + n_green d + n_transit d + n_road d - n_empty d in
  getZoneDistribution_with share_of c =
  if denominator =? 0 then {| labels := []; data := []; colors := [] |}
  else
    {| labels := map (fun zone => ZoneType.name (ZONE_TYPES zone)) (present d);
       data := map (fun zone => share_of (count_of d zone) denominator) (present d);
       colors := map (fun zone => ZoneType.color (ZONE_TYPES zone)) (present d) |}.
Proof.
  intros d denominator. unfold getZoneDistribution_with. fold d.
  rewrite sum_values. fold denominator.
  destruct (denominator =? 0); [reflexivity |].
  unfold present, zones. cbn [fold_left List.filter count_of].
  destruct (0 <? n_residential d), (0 <? n_commercial d), (0 <? n_industrial d),
    (0 <? n_green d), (0 <? n_transit d), (0 <? n_road d); reflexivity.
Qed.

(** C9, as the code has it: the denominator of the zone-distribution view
    is the sum of the seven counts minus the [empty] count; when it is 0 the
    three sequences are empty; otherwise the zones residential, commercial,
    industrial, green, transit, road with a positive count contribute, in
    that order, their name, their share and their colour.  The share is
    [Math.round((count / denominator) * 100)] as evaluated in double
    precision, which is not always the exactly rounded percentage.  The
    counts 40, 10, 5, 20, 5, 20 with no empty cell give the shares
    40, 10, 5, 20, 5, 20. *)
Theorem getZoneDistribution_shares :
  (forall c : CityModel,
     let d := distribution c in
     let denominator :=
       n_empty d + n_residential d + n_commercial d + n_industrial d
       + n_green d + n_transit d + n_road d - n_empty d in
     getZoneDistribution_double c =
     if denominator =? 0 then {| labels := []; data := []; colors := [] |}
     else
       {| labels := map (fun zone => ZoneType.name (ZONE_TYPES zone)) (present d);
          data := map (fun zone => share_double (count_of d zone) denominator) (present d);
          colors := map (fun zone => ZoneType.color (ZONE_TYPES zone)) (present d) |}) /\
  data (getZoneDistribution_double sample_city) = [40; 10; 5; 20; 5; 20].
Proof.
  split; [| vm_compute; reflexivity].
  intros c. apply getZoneDistribution_with_closed_form.
Qed.

(** C9 as stated, with the share [round(count / denominator * 100)], fails
    at a tie: for 23 residential and 17 commercial cells the percentage of
    the first is 57.5, which rounds to 58, but the double product is just
    below 57.5 and the code reports 57. *)
Lemma getZoneDistribution_tie :
  let c := mkCity sample_stats (mkDistribution 0 23 17 0 0 0 0) in
  data (getZoneDistribution_double c) = [57; 43] /\
  (inject_Z 23 / inject_Z 40 * 100 == 57.5)%Q /\
  Math_round (inject_Z 23 / inject_Z 40 * 100) = 58 /\
  data (getZoneDistribution_double c)
  <> map (fun count => Math_round (inject_Z count / inject_Z 40 * 100)) [23; 17].
Proof. vm_compute. repeat split; discriminate. Qed.

(** ** Paths of runs *)

Lemma simulateTo_engine (s : Simulator) (target : Z) (onUpdate : bool) :
  isRunning s = false ->
  let s' := fst (simulateTo target onUpdate s) in
  currentYear s' = target /\ isRunning s' = false /\
  baseYear s' = baseYear s /\ baselineStats s' = baselineStats s.
Proof.
  intros Hrun. cbn zeta.
  destruct (Z.eq_dec target (currentYear s)) as [-> | Hne].
  - rewrite (simulateTo_no_move s (currentYear s) onUpdate Hrun eq_refl). cbn. tauto.
  - rewrite (simulateTo_closed_form s target onUpdate Hrun Hne). cbn. tauto.
Qed.

Lemma simulateTo_in_step (s : Simulator) (target : Z) (onUpdate : bool) :
  in_step s -> in_step (fst (simulateTo target onUpdate s)).
Proof.
  intros [Hrun Hgov].
  destruct (Z.eq_dec target (currentYear s)) as [-> | Hne].
  - rewrite (simulateTo_no_move s (currentYear s) onUpdate Hrun eq_refl).
    split; assumption.
  - rewrite (simulateTo_closed_form s target onUpdate Hrun Hne).
    split; [reflexivity |]. cbn. intros Hlt. unfold final_stats.
    replace (baseYear s <? target) with true by (symmetry; now apply Z.ltb_lt).
    rewrite orb_true_r. reflexivity.
Qed.

Lemma simulateTo_not_before_base (s : Simulator) (target : Z) (onUpdate : bool) :
  not_before_base s -> baseYear s <= target ->
  not_before_base (fst (simulateTo target onUpdate s)).
Proof.
  intros (Hin & Hle & Hat) Htarget.
  split; [now apply simulateTo_in_step |].
  destruct Hin as [Hrun _].
  destruct (Z.eq_dec target (currentYear s)) as [-> | Hne].
  - rewrite (simulateTo_no_move s (currentYear s) onUpdate Hrun eq_refl).
    split; assumption.
  - rewrite (simulateTo_closed_form s target onUpdate Hrun Hne). cbn.
    split; [exact Htarget |]. intros ->. unfold final_stats.
    replace (currentYear s <? baseYear s) with false by (symmetry; apply Z.ltb_ge; lia).
    now rewrite Z.ltb_irrefl.
Qed.

Lemma run_path_snoc (targets : list Z) (target : Z) (s : Simulator) :
  run_path (targets ++ [target]) s = fst (simulateTo target false (run_path targets s)).
Proof. unfold run_path. now rewrite fold_left_app. Qed.

Lemma run_path_in_step (targets : list Z) (s : Simulator) :
  in_step s ->
  let s' := run_path targets s in
  in_step s' /\ baseYear s' = baseYear s /\ baselineStats s' = baselineStats s.
Proof.
  intros Hin. induction targets as [| target targets IH] using rev_ind; cbn zeta.
  - cbn. tauto.
  - destruct IH as (Hin' & Hb & Hbs). rewrite run_path_snoc.
    split; [now apply simulateTo_in_step |].
    destruct (simulateTo_engine (run_path targets s) target false (proj1 Hin'))
      as (_ & _ & -> & ->).
    split; assumption.
Qed.

Lemma run_path_not_before_base (targets : list Z) (s : Simulator) :
  not_before_base s -> List.Forall (fun target => baseYear s <= target) targets ->
  not_before_base (run_path targets s).
Proof.
  intros Hnb. induction targets as [| target targets IH] using rev_ind; intros Hall.
  - exact Hnb.
  - apply Forall_app in Hall as [Hall Hlast]. rewrite run_path_snoc.
    apply simulateTo_not_before_base; [now apply IH |].
    destruct (run_path_in_step targets s (proj1 Hnb)) as (_ & -> & _).
    now inversion Hlast.
Qed.

(** A freshly constructed engine. *)
Lemma newSimulator_not_before_base (c : CityModel) : not_before_base (newSimulator c).
Proof. repeat split; cbn; lia. Qed.

(** Where the governed fields do not depend on the path: from a fresh
    engine, any sequence of completed runs ending at the year [Y] stores the
    same [population], [airQuality], [walkability] and [carbonFootprint] as
    the single run to [Y], when [Y] is after the base year or no run of the
    sequence was aimed before the base year. *)
Lemma run_path_independent (c : CityModel) (targets : list Z) (Y : Z) :
  2025 < Y \/ List.Forall (fun target => 2025 <= target) (targets ++ [Y]) ->
  governed (stats (city (run_path (targets ++ [Y]) (newSimulator c))))
  = governed (stats (city (fst (simulateTo Y false (newSimulator c))))).
Proof.
  intros Hcase.
  pose proof (newSimulator_not_before_base c) as Hnew.
  assert (Hyear : forall s, in_step s -> s = run_path targets (newSimulator c) \/
                            s = newSimulator c ->
            let s' := fst (simulateTo Y false s) in
            currentYear s' = Y /\ baseYear s' = 2025 /\ baselineStats s' = stats c).
  { intros s Hin Hs.
    destruct (simulateTo_engine s Y false (proj1 Hin)) as (Hy & _ & Hb & Hbs).
    cbn zeta. rewrite Hy, Hb, Hbs.
    destruct Hs as [-> | ->]; [| cbn; tauto].
    destruct (run_path_in_step targets (newSimulator c) (proj1 Hnew)) as (_ & -> & ->).
    cbn. tauto. }
  destruct (run_path_in_step targets (newSimulator c) (proj1 Hnew)) as (Hin & _ & _).
  rewrite run_path_snoc.
  destruct (Hyear _ Hin (or_introl eq_refl)) as (Hy1 & Hb1 & Hbs1).
  destruct (Hyear _ (proj1 Hnew) (or_intror eq_refl)) as (Hy2 & Hb2 & Hbs2).
  assert (H1 : not_before_base (fst (simulateTo Y false (run_path targets (newSimulator c))))
               \/ 2025 < Y).
  { destruct Hcase as [Hlt | Hall]; [now right | left].
    rewrite <- run_path_snoc. now apply run_path_not_before_base. }
  assert (H2 : not_before_base (fst (simulateTo Y false (newSimulator c))) \/ 2025 < Y).
  { destruct Hcase as [Hlt | Hall]; [now right | left].
    apply simulateTo_not_before_base; [exact Hnew |].
    apply Forall_app in Hall as [_ Hlast]. now inversion Hlast. }
  pose proof (simulateTo_in_step _ Y false Hin) as [_ Hg1].
  pose proof (simulateTo_in_step _ Y false (proj1 Hnew)) as [_ Hg2].
  rewrite Hy1, Hb1, Hbs1 in Hg1. rewrite Hy2, Hb2, Hbs2 in Hg2.
  destruct (Z_lt_le_dec 2025 Y) as [Hlt | Hle].
  - rewrite Hg1, Hg2 by exact Hlt. reflexivity.
  - destruct H1 as [(_ & Hge1 & Hat1) | ?]; [| lia].
    destruct H2 as [(_ & Hge2 & Hat2) | ?]; [| lia].
    rewrite Hy1, Hb1, Hbs1 in *. rewrite Hy2, Hb2, Hbs2 in *.
    rewrite Hat1, Hat2 by lia. reflexivity.
Qed.

(** C4 fails on the code: a path that goes before the base year and comes
    forward again ends with other values than the single run to the same
    year.  From the baseline of 2025 with population 500000, the runs to 2023
    and then to 2024 store [round(500000 / 1.015) = 492611]; the single run
    to 2024 stores the baseline 500000. *)
Theorem run_path_before_base_differs :
  let sim := newSimulator sample_city in
  let via := run_path [2023; 2024] sim in
  let direct := fst (simulateTo 2024 false sim) in
  currentYear via = 2024 /\ currentYear direct = 2024 /\
  (population (stats (city via)) == 492611)%Q /\
  (population (stats (city direct)) == 500000)%Q /\
  governed (stats (city via)) <> governed (stats (city direct)).
Proof. vm_compute. repeat split; discriminate. Qed.

(** ** Bounded metrics *)

Lemma is_integer_inject_Z (z : Z) : is_integer (inject_Z z).
Proof. unfold is_integer. now rewrite Qfloor_Z. Qed.

Lemma bounded_metric_inject_Z (z : Z) : 0 <= z <= 100 -> bounded_metric (inject_Z z).
Proof.
  intros [Hlo Hhi]. split; [apply is_integer_inject_Z |].
  split; [change 0%Q with (inject_Z 0) | change 100%Q with (inject_Z 100)];
    now rewrite <- Zle_Qle.
Qed.

Lemma bounded_metric_round_clamped (x : Q) : bounded_metric (round_clamped x).
Proof.
  destruct (round_clamped_range x) as (z & -> & Hz). now apply bounded_metric_inject_Z.
Qed.

(** [applyScenario] keeps the invariant, for any id. *)
Lemma applyScenario_well_formed (scenarioId : string) (sim : Simulator) :
  well_formed (stats (city sim)) ->
  well_formed (stats (city (snd (applyScenario scenarioId sim)))).
Proof.
  intros Hwf. unfold applyScenario.
  destruct (SCENARIOS !! scenarioId) as [sc |]; [| exact Hwf].
  destruct Hwf as (_ & _ & Hg & _ & _ & _ & _ & _ & He). cbn.
  repeat split; try apply bounded_metric_round_clamped; try apply is_integer_inject_Z;
    first [ apply Hg | apply He ].
Qed.

(** A yearly formula with a floor: a baseline in [0, 100] degraded for
    [yearsSinceBase >= 0] years stays in [0, 100]. *)
Lemma degraded_bounded (floor base rate : Q) (yearsSinceBase : Z) :
  (0 <= floor <= 100)%Q -> is_integer floor ->
  (0 <= base <= 100)%Q -> (0 <= rate)%Q -> 0 <= yearsSinceBase ->
  bounded_metric
    (Math_max floor
       (rounded (base * (1 - degradationRate * inject_Z yearsSinceBase * rate)))).
Proof.
  intros Hfloor Hint [Hlo Hhi] Hrate Hyears.
  set (x := (base * (1 - degradationRate * inject_Z yearsSinceBase * rate))%Q).
  assert (Hx : (x <= 100)%Q).
  { assert (He : (0 <= inject_Z yearsSinceBase)%Q)
      by (change 0%Q with (inject_Z 0); now rewrite <- Zle_Qle).
    assert (Hd : (0 <= degradationRate * inject_Z yearsSinceBase * rate)%Q).
    { apply Qmult_le_0_compat; [apply Qmult_le_0_compat |]; try assumption.
      unfold degradationRate. lra. }
    assert (Hb : (0 <= base * (degradationRate * inject_Z yearsSinceBase * rate))%Q)
      by now apply Qmult_le_0_compat.
    unfold x. set (d := (degradationRate * inject_Z yearsSinceBase * rate)%Q) in *.
    assert (Heq : (base * (1 - d) == base - base * d)%Q) by ring.
    rewrite Heq. lra. }
  assert (Hr : Math_round x <= 100).
  { rewrite <- (Math_round_Z 100). now apply Math_round_mono. }
  destruct (Math_max_spec floor (rounded x)) as [[Hle ->] | [Hlt ->]].
  - unfold rounded in *. apply bounded_metric_inject_Z. split; [| exact Hr].
    rewrite Zle_Qle. change (inject_Z 0) with 0%Q. lra.
  - split; assumption.
Qed.

Lemma applyYearlyChanges_well_formed (sim : Simulator) :
  well_formed (baselineStats sim) -> well_formed (stats (city sim)) ->
  baseYear sim <= currentYear sim ->
  well_formed (stats (city (applyYearlyChanges sim))).
Proof.
  intros (_ & _ & _ & _ & [_ Hw] & [_ Ha] & _) (Hs & He & Hg & Ht & _ & _ & _ & _ & Hc) Hy.
  unfold applyYearlyChanges. cbn.
  repeat split; try apply is_integer_inject_Z;
    try first [ apply Hs | apply He | apply Hg | apply Ht | apply Hc ];
    apply degraded_bounded; try assumption; try lia;
    try (split; intros; discriminate); try reflexivity; lra.
Qed.

Lemma revertYearlyChanges_well_formed (sim : Simulator) :
  well_formed (baselineStats sim) -> well_formed (stats (city sim)) ->
  well_formed (stats (city (revertYearlyChanges sim))).
Proof.
  intros Hb Hs. unfold revertYearlyChanges.
  destruct (currentYear sim - baseYear sim <=? 0) eqn:E; [exact Hb |].
  apply Z.leb_gt in E. apply applyYearlyChanges_well_formed; try assumption. lia.
Qed.

(** One iteration of the loop keeps the invariant when it goes backward, and
    when it goes forward into a year that is not before the base year. *)
Lemma loop_body_well_formed (direction : Z) (onUpdate : bool) (sim : Simulator) :
  well_formed (baselineStats sim) -> well_formed (stats (city sim)) ->
  direction <= 0 \/ baseYear sim <= currentYear sim + direction ->
  well_formed (stats (city (fst (loop_body direction onUpdate sim)))).
Proof.
  intros Hb Hs Hdir. unfold loop_body. cbn [fst].
  destruct (0 <? direction) eqn:E.
  - apply Z.ltb_lt in E. apply applyYearlyChanges_well_formed; try assumption.
    cbn. lia.
  - now apply revertYearlyChanges_well_formed.
Qed.

Lemma sample_stats_well_formed : well_formed sample_stats.
Proof. vm_compute. repeat split; discriminate. Qed.

(** C5 fails on the code for a forward step into a year before the base
    year.  The record of [sample_city] holds integers with every bounded
    metric in [0, 100] and [walkability = 100].  After the run from 2025 back
    to 2017, the run to 2018 is one forward step with
    [yearsSinceBase = -7], which stores
    [walkability = round(100 * 1.0105) = 101]. *)
Theorem forward_step_before_base_walkability :
  let sim := fst (simulateTo 2017 true (newSimulator sample_city)) in
  let step := simulateTo 2018 true sim in
  well_formed (stats (city (newSimulator sample_city))) /\
  well_formed (stats (city sim)) /\
  length (snd step) = 1%nat /\
  currentYear (fst step) - baseYear (fst step) = -7 /\
  (walkability (stats (city (fst step))) == 101)%Q /\
  ~ well_formed (stats (city (fst step))).
Proof.
  cbv zeta. split; [exact sample_stats_well_formed |].
  split; [vm_compute; repeat split; discriminate |].
  split; [vm_compute; reflexivity |].
  split; [vm_compute; reflexivity |].
  split; [vm_compute; reflexivity |].
  intros (_ & _ & _ & _ & [_ [_ Hw]] & _). vm_compute in Hw. apply Hw. reflexivity.
Qed.

(** * Further properties of the engine *)

(** ** Runs, step by step *)

Lemma loop_iterations (direction target : Z) (onUpdate : bool) :
  forall fuel sim r,
    loop fuel direction target onUpdate sim = Some r ->
    r = iterations fuel direction target onUpdate sim.
Proof.
  induction fuel as [| fuel IH]; intros sim r Hloop; cbn [loop iterations] in *.
  - destruct (loop_cond target sim); [discriminate | congruence].
  - destruct (loop_cond target sim); [| congruence].
    destruct (loop_body direction onUpdate sim) as [sim' u].
    destruct (loop fuel direction target onUpdate sim') as [[sim'' us] |] eqn:Hl;
      [| discriminate].
    rewrite <- (IH _ _ Hl). congruence.
Qed.

Section Steps.

Variable sim : Simulator.
Variable target : Z.
Variable onUpdate : bool.

Local Abbreviation d := (direction_to target sim).
Local Abbreviation between := (between sim target).

Lemma at_year_on_the_way (y : Z) : between y -> on_the_way sim target (at_year sim y).
Proof.
  intros [Hf Hb]. unfold at_year. destruct (y =? currentYear sim) eqn:E.
  - apply Z.eqb_eq in E. subst y. apply on_the_way_start.
  - apply Z.eqb_neq in E. exists y, (final_stats sim y).
    split; [reflexivity |]. split; [exact Hf |]. split; [exact Hb |]. right. now split.
Qed.

Lemma at_year_engine (y : Z) :
  currentYear (at_year sim y) = y /\ isRunning (at_year sim y) = true.
Proof.
  unfold at_year. destruct (y =? currentYear sim) eqn:E; cbn; [| tauto].
  apply Z.eqb_eq in E. now split.
Qed.

Lemma at_year_next (y : Z) :
  between y -> y <> target ->
  loop_body d onUpdate (at_year sim y)
  = (at_year sim (y + d),
     if onUpdate then [(y + d, final_stats sim (y + d))] else []).
Proof.
  intros Hb Hne.
  pose proof (at_year_on_the_way y Hb) as Hway.
  destruct (at_year_engine y) as [Hy Hrun].
  assert (Hc : loop_cond target (at_year sim y) = true).
  { unfold loop_cond. rewrite Hy, Hrun.
    replace (y =? target) with false by (symmetry; now apply Z.eqb_neq). reflexivity. }
  pose proof (on_the_way_step sim target onUpdate _ Hway Hc) as (y' & st' & Hs & _ & _ & Hst).
  destruct (loop_body_engine onUpdate (direction_to target sim) (at_year sim y))
    as (_ & Hyear & _).
  rewrite Hs, Hy in Hyear. cbn in Hyear. subst y'.
  assert (Hmove : y + d <> currentYear sim).
  { destruct Hb as [Hf Hb].
    destruct (direction_to_cases target sim) as [[? Hd] | [? Hd]]; rewrite Hd in *;
      [specialize (Hf eq_refl) | specialize (Hb eq_refl)]; lia. }
  destruct Hst as [[? _] | [_ ->]]; [contradiction |].
  assert (Hat : at_year sim (y + d) = moved sim true (y + d) (final_stats sim (y + d))).
  { unfold at_year. now replace (y + d =? currentYear sim) with false
      by (symmetry; now apply Z.eqb_neq). }
  rewrite Hat. rewrite <- Hs.
  unfold loop_body.
  destruct (if 0 <? d
            then applyYearlyChanges (with_currentYear (currentYear (at_year sim y) + d)
                                       (at_year sim y))
            else revertYearlyChanges (with_currentYear (currentYear (at_year sim y) + d)
                                        (at_year sim y))) eqn:Hbody.
  unfold loop_body in Hs. rewrite Hbody in Hs. cbn [fst] in Hs.
  rewrite Hs. cbn. reflexivity.
Qed.

(** The first [k] iterations of a run: the engine is at the [k]-th year of
    the way, and [onUpdate] was called once for each year passed. *)
Lemma iterations_at_year :
  forall (k : nat) (y : Z),
    between y -> (k <= Z.abs_nat (target - y))%nat ->
    iterations k d target onUpdate (at_year sim y)
    = (at_year sim (y + d * Z.of_nat k),
       if onUpdate
       then map (fun i => let y' := y + d * Z.of_nat (S i) in (y', final_stats sim y'))
                (seq 0 k)
       else []).
Proof.
  assert (Hd : d = 1 \/ d = -1).
  { destruct (direction_to_cases target sim) as [[_ ->] | [_ ->]]; tauto. }
  induction k as [| k IH]; intros y Hb Hk.
  - cbn [iterations seq map]. replace (y + d * Z.of_nat 0) with y by lia.
    now destruct onUpdate.
  - assert (Hne : y <> target) by lia.
    cbn [iterations].
    destruct (at_year_engine y) as [Hy Hrun].
    replace (loop_cond target (at_year sim y)) with true.
    2:{ unfold loop_cond. rewrite Hy, Hrun.
        replace (y =? target) with false by (symmetry; now apply Z.eqb_neq). reflexivity. }
    rewrite (at_year_next y Hb Hne).
    assert (Hb' : between (y + d)).
    { destruct Hb as [Hf Hbk]. split; intros E; [specialize (Hf E) | specialize (Hbk E)]; lia. }
    rewrite (IH (y + d) Hb') by lia.
    replace (y + d + d * Z.of_nat k) with (y + d * Z.of_nat (S k)) by lia.
    f_equal. destruct onUpdate; [| reflexivity].
    cbn [seq map app]. replace (y + d * Z.of_nat 1) with (y + d) by lia.
    f_equal. rewrite <- seq_shift, map_map. apply map_ext. intros i.
    replace (y + d + d * Z.of_nat (S i)) with (y + d * Z.of_nat (S (S i))) by lia.
    reflexivity.
Qed.

Lemma between_start : between (currentYear sim).
Proof.
  split; intros E;
    destruct (direction_to_cases target sim) as [[? Hd] | [? Hd]]; rewrite Hd in E; lia.
Qed.

Lemma at_year_start : at_year sim (currentYear sim) = with_isRunning true sim.
Proof. unfold at_year. now rewrite Z.eqb_refl. Qed.

End Steps.

(** A completed run as its iterations. *)
Lemma simulateTo_iterations (sim : Simulator) (target : Z) (onUpdate : bool) :
  isRunning sim = false ->
  simulateTo target onUpdate sim
  = (with_isRunning false
       (at_year sim (currentYear sim + direction_to target sim
                                       * Z.of_nat (Z.abs_nat (target - currentYear sim)))),
     if onUpdate
     then map (fun y => (y, final_stats sim y)) (run_years sim target)
     else []).
Proof.
  intros Hrun.
  pose proof (simulateTo_fuel_enough target onUpdate sim _ (Nat.le_refl _)) as Hsim.
  unfold simulateTo_fuel in Hsim. rewrite Hrun in Hsim.
  destruct (loop _ (direction_to target sim) target onUpdate (with_isRunning true sim))
    as [r |] eqn:Hl; [| discriminate].
  apply loop_iterations in Hl. rewrite <- (at_year_start sim) in Hl.
  rewrite (iterations_at_year sim target onUpdate _ _ (between_start sim target)) in Hl
    by lia.
  subst r. injection Hsim as <-. f_equal.
  unfold run_years. destruct onUpdate; [| reflexivity]. now rewrite map_map.
Qed.

(** A run started on an idle engine calls [onUpdate] once per year stepped
    through, in the order of travel and ending with the target year, each
    time with the statistics of that year; it makes [|target - currentYear|]
    calls, and none when no callback was passed. *)
Theorem simulateTo_updates (sim : Simulator) (target : Z) :
  isRunning sim = false ->
  snd (simulateTo target true sim)
  = map (fun y => (y, final_stats sim y)) (run_years sim target) /\
  length (snd (simulateTo target true sim)) = Z.abs_nat (target - currentYear sim) /\
  snd (simulateTo target false sim) = [].
Proof.
  intros Hrun. rewrite !(simulateTo_iterations sim target _ Hrun). cbn [snd].
  repeat split. unfold run_years. now rewrite !length_map, length_seq.
Qed.

Lemma simulateTo_updates_witness :
  map fst (snd (simulateTo 2022 true (newSimulator sample_city))) = [2024; 2023; 2022].
Proof.
  destruct (simulateTo_updates (newSimulator sample_city) 2022) as (-> & _).
  - reflexivity.
  - vm_compute. reflexivity.
Defined.

(** A run that [stop] cuts short after [k] iterations leaves the engine as
    the completed run to the year reached does, and has made the first [k]
    of the [onUpdate] calls of the uninterrupted run. *)
Theorem simulateTo_stopped_early
  (sim : Simulator) (target : Z) (onUpdate : bool) (k : nat) :
  isRunning sim = false ->
  (k <= Z.abs_nat (target - currentYear sim))%nat ->
  let reached := currentYear sim + direction_to target sim * Z.of_nat k in
  fst (simulateTo_stopped k target onUpdate sim) = fst (simulateTo reached onUpdate sim) /\
  snd (simulateTo_stopped k target onUpdate sim)
  = firstn k (snd (simulateTo target onUpdate sim)).
Proof.
  intros Hrun Hk reached.
  unfold simulateTo_stopped. rewrite Hrun.
  rewrite <- (at_year_start sim).
  rewrite (iterations_at_year sim target onUpdate _ _ (between_start sim target) Hk).
  fold reached. cbn [fst snd]. split.
  - destruct (Z.eq_dec reached (currentYear sim)) as [E | E].
    + rewrite E, (simulateTo_no_move sim (currentYear sim) onUpdate Hrun eq_refl).
      rewrite at_year_start. cbn.
      destruct sim as [? [|] ? ? ? ? ? ? ?]; [discriminate | reflexivity].
    + rewrite (simulateTo_closed_form sim reached onUpdate Hrun E).
      unfold at_year. replace (reached =? currentYear sim) with false
        by (symmetry; now apply Z.eqb_neq).
      reflexivity.
  - rewrite (simulateTo_iterations sim target onUpdate Hrun). cbn [snd].
    destruct onUpdate; [| now destruct k].
    unfold run_years. rewrite map_map, firstn_map, take_seq.
    now rewrite Nat.min_l by exact Hk.
Qed.

Lemma simulateTo_stopped_early_witness :
  fst (simulateTo_stopped 3 2040 true (newSimulator sample_city))
  = fst (simulateTo 2028 true (newSimulator sample_city)).
Proof.
  destruct (simulateTo_stopped_early (newSimulator sample_city) 2040 true 3) as [H _].
  - reflexivity.
  - cbn. lia.
  - exact H.
Defined.

(** Two runs in the same direction compose: running on to a farther year
    gives the engine state of the single run to that year. *)
Theorem simulateTo_same_direction (sim : Simulator) (t1 t2 : Z) (onUpdate : bool) :
  isRunning sim = false ->
  currentYear sim < t1 <= t2 \/ t2 <= t1 < currentYear sim ->
  fst (simulateTo t2 onUpdate (fst (simulateTo t1 onUpdate sim)))
  = fst (simulateTo t2 onUpdate sim).
Proof.
  intros Hrun Hdir.
  rewrite (simulateTo_closed_form sim t1 onUpdate Hrun) by lia.
  destruct (Z.eq_dec t2 t1) as [-> | Hne].
  - rewrite simulateTo_no_move by reflexivity.
    now rewrite (simulateTo_closed_form sim t1 onUpdate Hrun) by lia.
  - rewrite simulateTo_closed_form by (cbn; congruence).
    rewrite (simulateTo_closed_form sim t2 onUpdate Hrun) by lia.
    unfold moved, final_stats. cbn.
    destruct Hdir as [Hf | Hb].
    + replace (t1 <? t2) with true by (symmetry; apply Z.ltb_lt; lia).
      replace (currentYear sim <? t2) with true by (symmetry; apply Z.ltb_lt; lia).
      replace (currentYear sim <? t1) with true by (symmetry; apply Z.ltb_lt; lia).
      reflexivity.
    + replace (t1 <? t2) with false by (symmetry; apply Z.ltb_ge; lia).
      replace (currentYear sim <? t2) with false by (symmetry; apply Z.ltb_ge; lia).
      replace (currentYear sim <? t1) with false by (symmetry; apply Z.ltb_ge; lia).
      cbn [orb]. destruct (baseYear sim <? t2) eqn:E2; [| reflexivity].
      apply Z.ltb_lt in E2.
      replace (baseYear sim <? t1) with true by (symmetry; apply Z.ltb_lt; lia).
      reflexivity.
Qed.

Lemma simulateTo_same_direction_witness :
  let sim := newSimulator sample_city in
  fst (simulateTo 2040 true (fst (simulateTo 2030 true sim))) = fst (simulateTo 2040 true sim).
Proof.
  intros sim. apply (simulateTo_same_direction sim 2030 2040 true).
  - reflexivity.
  - left. cbn. lia.
Defined.

(** [reset] undoes whatever a scenario or a run did: the engine it yields
    depends only on the baseline, the base year and the settings, so it is
    the same as if the operation had not taken place. *)
Theorem reset_undoes (sim : Simulator) (scenarioId : string) (target : Z) (onUpdate : bool) :
  reset (snd (applyScenario scenarioId sim)) = reset sim /\
  reset (fst (simulateTo target onUpdate sim)) = reset sim /\
  reset (newSimulator (city sim)) = newSimulator (city sim).
Proof.
  split; [| split].
  - unfold applyScenario. now destruct (SCENARIOS !! scenarioId).
  - destruct (isRunning sim) eqn:Hrun.
    { now rewrite (simulateTo_when_running sim target onUpdate Hrun). }
    destruct (Z.eq_dec target (currentYear sim)) as [E | E].
    + now rewrite (simulateTo_no_move sim target onUpdate Hrun E).
    + now rewrite (simulateTo_closed_form sim target onUpdate Hrun E).
  - destruct (city sim). reflexivity.
Qed.

(** ** The yearly formulas over time *)

Lemma rounded_mono (x y : Q) : (x <= y)%Q -> (rounded x <= rounded y)%Q.
Proof. intros H. unfold rounded. rewrite <- Zle_Qle. now apply Math_round_mono. Qed.

Lemma Math_max_mono_r (a b b' : Q) : (b <= b')%Q -> (Math_max a b <= Math_max a b')%Q.
Proof.
  intros H.
  destruct (Math_max_spec a b) as [[? ->] | [? ->]];
    destruct (Math_max_spec a b') as [[? ->] | [? ->]]; lra.
Qed.

Lemma Math_max_lower (a b : Q) : (a <= Math_max a b)%Q.
Proof. destruct (Math_max_spec a b) as [[? ->] | [? ->]]; lra. Qed.

Lemma yearly_population_mono (base : Stats) (e1 e2 : Z) :
  (0 <= population base)%Q -> e1 <= e2 ->
  (yearly_population base e1 <= yearly_population base e2)%Q.
Proof.
  intros Hp He. unfold yearly_population, Math_pow. apply rounded_mono.
  assert (Hq : (1 <= 1 + growthRate)%Q) by (unfold growthRate; lra).
  apply Qmult_le_compat_nonneg.
  - split; [exact Hp | lra].
  - split; [apply Qpower_0_le; lra | now apply Qpower_le_compat_l].
Qed.

Lemma degraded_antitone (floor base rate : Q) (e1 e2 : Z) :
  (0 <= base)%Q -> (0 <= rate)%Q -> e1 <= e2 ->
  (Math_max floor (rounded (base * (1 - degradationRate * inject_Z e2 * rate)))
   <= Math_max floor (rounded (base * (1 - degradationRate * inject_Z e1 * rate))))%Q.
Proof.
  intros Hb Hr He. apply Math_max_mono_r, rounded_mono.
  rewrite !(Qmult_comm base). apply Qmult_le_compat_r; [| exact Hb].
  assert (Hq : (inject_Z e1 <= inject_Z e2)%Q) by now rewrite <- Zle_Qle.
  assert (Hd : (0 <= degradationRate * rate)%Q).
  { apply Qmult_le_0_compat; [unfold degradationRate; lra | exact Hr]. }
  assert (Hm : (degradationRate * rate * inject_Z e1
                <= degradationRate * rate * inject_Z e2)%Q).
  { rewrite !(Qmult_comm (degradationRate * rate)). now apply Qmult_le_compat_r. }
  assert (E1 : (degradationRate * inject_Z e1 * rate
                == degradationRate * rate * inject_Z e1)%Q) by ring.
  assert (E2 : (degradationRate * inject_Z e2 * rate
                == degradationRate * rate * inject_Z e2)%Q) by ring.
  rewrite E1, E2. lra.
Qed.

(** Forward in time nothing gets better: between two forward runs from the
    same idle engine, the one to the later year stores a population and a
    carbon footprint at least as large and an air quality and a walkability
    at most as large, when the baseline population, air quality and
    walkability are not negative. *)
Theorem forward_runs_monotone (sim : Simulator) (t1 t2 : Z) (onUpdate : bool) :
  isRunning sim = false ->
  currentYear sim < t1 <= t2 ->
  (0 <= population (baselineStats sim))%Q ->
  (0 <= airQuality (baselineStats sim))%Q ->
  (0 <= walkability (baselineStats sim))%Q ->
  let st1 := stats (city (fst (simulateTo t1 onUpdate sim))) in
  let st2 := stats (city (fst (simulateTo t2 onUpdate sim))) in
  (population st1 <= population st2)%Q /\
  (carbonFootprint st1 <= carbonFootprint st2)%Q /\
  (airQuality st2 <= airQuality st1)%Q /\
  (walkability st2 <= walkability st1)%Q.
Proof.
  intros Hrun Hdir Hp Ha Hw. cbn zeta.
  rewrite !(simulateTo_closed_form sim _ onUpdate Hrun) by lia.
  unfold final_stats.
  replace (currentYear sim <? t1) with true by (symmetry; apply Z.ltb_lt; lia).
  replace (currentYear sim <? t2) with true by (symmetry; apply Z.ltb_lt; lia).
  cbn. repeat split.
  - apply yearly_population_mono; [exact Hp | lia].
  - unfold yearly_carbonFootprint. apply rounded_mono.
    assert (Hq : (inject_Z (t1 - baseYear sim) <= inject_Z (t2 - baseYear sim))%Q)
      by (rewrite <- Zle_Qle; lia).
    lra.
  - apply degraded_antitone; [exact Ha | lra | lia].
  - apply degraded_antitone; [exact Hw | lra | lia].
Qed.

Lemma forward_runs_monotone_witness :
  let sim := newSimulator sample_city in
  (population (stats (city (fst (simulateTo 2030 true sim))))
   <= population (stats (city (fst (simulateTo 2050 true sim)))))%Q.
Proof.
  intros sim.
  destruct (forward_runs_monotone sim 2030 2050 true) as (H & _).
  - reflexivity.
  - cbn. lia.
  - cbn. lra.
  - cbn. lra.
  - cbn. lra.
  - exact H.
Defined.

(** The yearly formulas have floors: after a run that moved the clock
    forward, or backward to a year after the base year, the stored air
    quality is at least 30 and the walkability at least 20, whatever the
    baseline holds. *)
Theorem simulateTo_floors (sim : Simulator) (target : Z) (onUpdate : bool) :
  isRunning sim = false ->
  target <> currentYear sim ->
  currentYear sim < target \/ baseYear sim < target ->
  let st := stats (city (fst (simulateTo target onUpdate sim))) in
  (30 <= airQuality st)%Q /\ (20 <= walkability st)%Q.
Proof.
  intros Hrun Hne Hdir. cbn zeta.
  rewrite (simulateTo_closed_form sim target onUpdate Hrun Hne). unfold final_stats.
  replace ((currentYear sim <? target) || (baseYear sim <? target)) with true.
  - cbn. split; apply Math_max_lower.
  - symmetry. apply orb_true_iff. destruct Hdir; [left | right]; now apply Z.ltb_lt.
Qed.

Lemma simulateTo_floors_witness :
  let sim := newSimulator (mkCity (mkStats 500000 50 10 60 30 50 5 10 1000)
                             sample_distribution) in
  (30 <= airQuality (stats (city (fst (simulateTo 2026 true sim)))))%Q.
Proof.
  intros sim. destruct (simulateTo_floors sim 2026 true) as [H _].
  - reflexivity.
  - discriminate.
  - left. reflexivity.
  - exact H.
Defined.

(** ** Projection *)

(** The projection agrees with the live formulas where they overlap: after a
    run that moved the clock forward, or backward to a year after the base
    year, the stored population is the projected population for the target
    year, and the stored carbon footprint is the projected one, rounded. *)
Theorem getProjection_matches_run (sim : Simulator) (target : Z) (onUpdate : bool) :
  isRunning sim = false ->
  target <> currentYear sim ->
  currentYear sim < target \/ baseYear sim < target ->
  let sim' := fst (simulateTo target onUpdate sim) in
  population (stats (city sim')) = Projection.population (getProjection target sim) /\
  carbonFootprint (stats (city sim'))
  = rounded (Projection.carbonFootprint (getProjection target sim)) /\
  getProjection target sim' = getProjection target sim.
Proof.
  intros Hrun Hne Hdir. cbn zeta.
  rewrite (simulateTo_closed_form sim target onUpdate Hrun Hne). unfold final_stats.
  replace ((currentYear sim <? target) || (baseYear sim <? target)) with true.
  - repeat split.
  - symmetry. apply orb_true_iff. destruct Hdir; [left | right]; now apply Z.ltb_lt.
Qed.

Lemma getProjection_matches_run_witness :
  let sim := snd (applyScenario "population-growth" (newSimulator sample_city)) in
  population (stats (city (fst (simulateTo 2035 true sim))))
  = Projection.population (getProjection 2035 sim).
Proof.
  intros sim. destruct (getProjection_matches_run sim 2035 true) as [H _].
  - reflexivity.
  - discriminate.
  - left. reflexivity.
  - exact H.
Defined.

(** The projected sustainability score is never negative, does not grow
    with the year, and the projected carbon footprint grows by half a point
    per year; for the base year the projection gives the baseline carbon
    footprint, and the baseline sustainability score when that is not
    negative. *)
Theorem getProjection_trend (sim : Simulator) (y1 y2 : Z) :
  y1 <= y2 ->
  (0 <= Projection.sustainabilityScore (getProjection y1 sim))%Q /\
  (Projection.sustainabilityScore (getProjection y2 sim)
   <= Projection.sustainabilityScore (getProjection y1 sim))%Q /\
  (Projection.carbonFootprint (getProjection (y1 + 1) sim)
   == Projection.carbonFootprint (getProjection y1 sim) + 0.5)%Q /\
  (Projection.carbonFootprint (getProjection (baseYear sim) sim)
   == carbonFootprint (baselineStats sim))%Q /\
  ((0 <= sustainabilityScore (baselineStats sim))%Q ->
   (Projection.sustainabilityScore (getProjection (baseYear sim) sim)
    == sustainabilityScore (baselineStats sim))%Q).
Proof.
  intros Hy. unfold getProjection. cbn.
  assert (Hq : (inject_Z (y1 - baseYear sim) <= inject_Z (y2 - baseYear sim))%Q)
    by (rewrite <- Zle_Qle; lia).
  repeat split.
  - apply Math_max_lower.
  - apply Math_max_mono_r. lra.
  - replace (y1 + 1 - baseYear sim) with (y1 - baseYear sim + 1) by lia.
    rewrite inject_Z_plus. change (inject_Z 1) with 1%Q. ring.
  - rewrite Z.sub_diag. change (inject_Z 0) with 0%Q. ring.
  - intros Hs. rewrite Z.sub_diag. change (inject_Z 0) with 0%Q.
    destruct (Math_max_spec 0 (sustainabilityScore (baselineStats sim) - 0 * 0.5))
      as [[? ->] | [? ->]]; lra.
Qed.

Lemma getProjection_trend_witness :
  (Projection.sustainabilityScore (getProjection 2040 (newSimulator sample_city))
   <= Projection.sustainabilityScore (getProjection 2030 (newSimulator sample_city)))%Q.
Proof.
  destruct (getProjection_trend (newSimulator sample_city) 2030 2040) as (_ & H & _).
  - lia.
  - exact H.
Defined.

(** ** Sequences of operations *)

Lemma applyScenario_engine (scenarioId : string) (sim : Simulator) :
  let sim' := snd (applyScenario scenarioId sim) in
  isRunning sim' = isRunning sim /\ currentYear sim' = currentYear sim /\
  baseYear sim' = baseYear sim /\ baselineStats sim' = baselineStats sim.
Proof. unfold applyScenario. destruct (SCENARIOS !! scenarioId); cbn; tauto. Qed.

Lemma simulateTo_scenarios (sim : Simulator) (target : Z) (onUpdate : bool) :
  scenarios (fst (simulateTo target onUpdate sim)) = scenarios sim.
Proof.
  destruct (isRunning sim) eqn:Hrun.
  { now rewrite (simulateTo_when_running sim target onUpdate Hrun). }
  destruct (Z.eq_dec target (currentYear sim)) as [E | E].
  - now rewrite (simulateTo_no_move sim target onUpdate Hrun E).
  - now rewrite (simulateTo_closed_form sim target onUpdate Hrun E).
Qed.

Lemma exec_snoc (ops : list Op) (op : Op) (sim : Simulator) :
  exec (ops ++ [op]) sim = exec_op (exec ops sim) op.
Proof. unfold exec. now rewrite fold_left_app. Qed.

(** The scenario history is the list of the applied ids, in the order of
    application: every [applyScenario] with an id of the catalog appends one
    entry, an unknown id appends none, and runs leave the history alone. *)
Theorem history_in_order (ops : list Op) (sim : Simulator) :
  List.Forall (fun op => op <> Reset) ops ->
  map Applied.id (scenarios (exec ops sim))
  = map Applied.id (scenarios sim) ++ applied_ids ops.
Proof.
  induction ops as [| op ops IH] using rev_ind; intros Hall.
  - cbn. now rewrite app_nil_r.
  - apply Forall_app in Hall as [Hall Hop]. rewrite exec_snoc.
    unfold applied_ids in *. rewrite flat_map_app, app_assoc, <- (IH Hall). cbn [flat_map].
    destruct op as [scenarioId | target |]; cbn [exec_op].
    + unfold applyScenario. destruct (SCENARIOS !! scenarioId); cbn.
      * now rewrite map_app.
      * now rewrite !app_nil_r.
    + rewrite simulateTo_scenarios. now rewrite !app_nil_r.
    + inversion Hop as [| ? ? Hne _]. contradiction.
Qed.

Lemma history_in_order_witness :
  map Applied.id
    (scenarios (exec [Apply "add-transit"; Run 2030; Apply "no-such-scenario";
                      Apply "green-expansion"] (newSimulator sample_city)))
  = ["add-transit"; "green-expansion"].
Proof.
  rewrite history_in_order.
  - vm_compute. reflexivity.
  - repeat constructor; discriminate.
Defined.

Lemma yearly_update_well_formed (base : Stats) (e : Z) (st : Stats) :
  well_formed base -> well_formed st -> 0 <= e -> well_formed (yearly_update base e st).
Proof.
  intros Hb Hs He.
  pose (s := mkSimulator (mkCity st sample_distribution) false e 0 0 1 [] base
               sample_distribution).
  replace e with (currentYear s - baseYear s) by (cbn; lia).
  apply (applyYearlyChanges_well_formed s); cbn; [exact Hb | exact Hs | lia].
Qed.

(** The data-model invariant holds in every state an engine reaches without
    running to a year before its base year: starting from a city whose
    statistics are integers with the bounded metrics in [0, 100], any
    sequence of scenario applications (known or unknown ids), completed runs
    to years from 2025 on, and resets leaves such statistics. *)
Theorem exec_well_formed (c : CityModel) (ops : list Op) :
  well_formed (stats c) ->
  List.Forall (fun target => 2025 <= target) (run_targets ops) ->
  well_formed (stats (city (exec ops (newSimulator c)))).
Proof.
  intros Hwf Hall.
  assert (Inv : let s := exec ops (newSimulator c) in
                isRunning s = false /\ baseYear s = 2025 /\ 2025 <= currentYear s /\
                well_formed (baselineStats s) /\ well_formed (stats (city s)));
    [| apply Inv].
  revert Hall. induction ops as [| op ops IH] using rev_ind; intros Hall; cbn zeta.
  - cbn. refine (conj _ (conj _ (conj _ (conj _ _)))); try assumption; try reflexivity;
      lia.
  - unfold run_targets in *. rewrite flat_map_app in Hall.
    apply Forall_app in Hall as [Hall Hop].
    destruct (IH Hall) as (Hrun & Hbase & Hyear & Hwb & Hws). clear IH.
    rewrite exec_snoc. set (s := exec ops (newSimulator c)) in *.
    destruct op as [scenarioId | target |]; cbn [exec_op].
    + destruct (applyScenario_engine scenarioId s) as (-> & -> & -> & ->).
      refine (conj _ (conj _ (conj _ (conj _ _)))); try assumption.
      now apply applyScenario_well_formed.
    + assert (Ht : 2025 <= target) by (cbn in Hop; now inversion Hop).
      destruct (simulateTo_engine s target false Hrun) as (-> & -> & -> & ->).
      refine (conj _ (conj _ (conj _ (conj _ _)))); try assumption; try reflexivity.
      destruct (Z.eq_dec target (currentYear s)) as [E | E].
      * now rewrite (simulateTo_no_move s target false Hrun E).
      * rewrite (simulateTo_closed_form s target false Hrun E). cbn. unfold final_stats.
        destruct ((currentYear s <? target) || (baseYear s <? target)); [| exact Hwb].
        apply yearly_update_well_formed; try assumption. lia.
    + cbn. refine (conj _ (conj _ (conj _ (conj _ _)))); try assumption; try reflexivity;
        lia.
Qed.

Lemma exec_well_formed_witness :
  well_formed
    (stats (city (exec [Apply "green-expansion"; Run 2060; Apply "renewable-energy";
                        Run 2030; Reset; Run 2026] (newSimulator sample_city)))).
Proof.
  apply exec_well_formed.
  - exact sample_stats_well_formed.
  - cbn. repeat constructor; lia.
Defined.

Lemma run_path_independent_witness :
  governed (stats (city (run_path ([2020; 2030] ++ [2028]) (newSimulator sample_city))))
  = governed (stats (city (fst (simulateTo 2028 false (newSimulator sample_city))))).
Proof. apply run_path_independent. left. lia. Defined.

Lemma simulateTo_backward_to_base_witness :
  let sim := fst (simulateTo 2030 true
                    (snd (applyScenario "renewable-energy" (newSimulator sample_city)))) in
  stats (city (fst (simulateTo 2025 true sim))) = baselineStats sim.
Proof.
  intros sim. apply simulateTo_backward_to_base.
  - reflexivity.
  - vm_compute. reflexivity.
  - vm_compute. discriminate.
Defined.

(** ** Timeline *)

Lemma insert_by_year_perm (e : Event.t) (l : list Event.t) :
  Permutation (insert_by_year e l) (e :: l).
Proof.
  induction l as [| x l IH]; cbn; [reflexivity |].
  destruct (Event.year e <=? Event.year x); [reflexivity |].
  rewrite IH. apply perm_swap.
Qed.

Lemma sort_by_year_perm (l : list Event.t) : Permutation (sort_by_year l) l.
Proof.
  induction l as [| x l IH]; cbn; [reflexivity |].
  rewrite insert_by_year_perm. now constructor.
Qed.

Lemma insert_by_year_sorted (e : Event.t) (l : list Event.t) :
  StronglySorted by_year l -> StronglySorted by_year (insert_by_year e l).
Proof.
  induction l as [| x l IH]; intros Hs; cbn.
  - constructor; constructor.
  - inversion Hs as [| ? ? Hl Hx]; subst.
    destruct (Event.year e <=? Event.year x) eqn:E.
    + apply Z.leb_le in E. constructor; [exact Hs |].
      constructor; [exact E |].
      eapply List.Forall_impl; [| exact Hx]. unfold by_year. intros; lia.
    + apply Z.leb_gt in E. constructor; [now apply IH |].
      rewrite insert_by_year_perm. constructor; [unfold by_year; lia | exact Hx].
Qed.

Lemma sort_by_year_sorted (l : list Event.t) : StronglySorted by_year (sort_by_year l).
Proof.
  induction l as [| x l IH]; cbn; [constructor | now apply insert_by_year_sorted].
Qed.

Lemma insert_by_year_first (e : Event.t) (l : list Event.t) :
  List.Forall (by_year e) l -> insert_by_year e l = e :: l.
Proof.
  intros H. destruct l as [| x l]; [reflexivity |]. cbn.
  inversion H as [| ? ? Hx _]; subst. unfold by_year in Hx.
  now replace (Event.year e <=? Event.year x) with true by (symmetry; now apply Z.leb_le).
Qed.

Lemma insert_by_year_before_last (e c : Event.t) (l : list Event.t) :
  by_year e c -> insert_by_year e (l ++ [c]) = insert_by_year e l ++ [c].
Proof.
  intros H. induction l as [| x l IH]; cbn.
  - unfold by_year in H.
    now replace (Event.year e <=? Event.year c) with true by (symmetry; now apply Z.leb_le).
  - destruct (Event.year e <=? Event.year x); [reflexivity | now rewrite IH].
Qed.

Lemma sort_by_year_last (c : Event.t) (l : list Event.t) :
  List.Forall (fun e => by_year e c) l ->
  sort_by_year (l ++ [c]) = sort_by_year l ++ [c].
Proof.
  induction l as [| x l IH]; intros H; [reflexivity |].
  inversion H; subst.
  change (insert_by_year x (sort_by_year (l ++ [c]))
          = insert_by_year x (sort_by_year l) ++ [c]).
  rewrite IH by assumption. now apply insert_by_year_before_last.
Qed.

(** The timeline is in the order of the years and holds every event once:
    the start, one event per applied scenario, and the current year. *)
Theorem getTimeline_sorted (sim : Simulator) :
  StronglySorted by_year (getTimeline sim) /\
  Permutation (getTimeline sim) (timeline_events sim) /\
  length (getTimeline sim) = (2 + length (scenarios sim))%nat.
Proof.
  unfold getTimeline. split; [apply sort_by_year_sorted |].
  split; [apply sort_by_year_perm |].
  rewrite (Permutation_length (sort_by_year_perm _)). unfold timeline_events.
  rewrite !length_app, length_map. cbn. lia.
Qed.

(** When every scenario was applied in a year from the base year to the
    current year, the timeline starts with the baseline event and ends with
    the current-year event, also when scenarios were applied in those very
    years; the scenario events lie between them in the order of their
    years. *)
Theorem getTimeline_ends (sim : Simulator) :
  baseYear sim <= currentYear sim ->
  List.Forall (fun s => baseYear sim <= Applied.appliedAt s <= currentYear sim)
         (scenarios sim) ->
  getTimeline sim
  = [Event.mk (baseYear sim) "Baseline" "start"]
    ++ sort_by_year (map scenario_event (scenarios sim))
    ++ [Event.mk (currentYear sim) "Current" "current"].
Proof.
  intros Hyear Hall. unfold getTimeline, timeline_events.
  change (map (fun s => Event.mk (Applied.appliedAt s) (Applied.name s) "scenario"))
    with (map scenario_event).
  cbn [app sort_by_year fold_right]. fold (sort_by_year
    (map scenario_event (scenarios sim) ++ [Event.mk (currentYear sim) "Current" "current"])).
  rewrite sort_by_year_last.
  - apply insert_by_year_first. apply Forall_app. split.
    + rewrite (sort_by_year_perm (map scenario_event (scenarios sim))).
      apply Forall_map. eapply List.Forall_impl; [| exact Hall].
      unfold by_year. cbn. intros; lia.
    + constructor; [unfold by_year; cbn; lia | constructor].
  - apply Forall_map. eapply List.Forall_impl; [| exact Hall].
    unfold by_year. cbn. intros; lia.
Qed.

Lemma getTimeline_ends_witness :
  map Event.event
    (getTimeline (exec [Apply "add-transit"; Run 2030; Apply "green-expansion"]
                    (newSimulator sample_city)))
  = ["Baseline"; "Add Transit Line"; "Green Expansion"; "Current"].
Proof.
  rewrite getTimeline_ends.
  - vm_compute. reflexivity.
  - vm_compute. discriminate.
  - vm_compute. repeat constructor; discriminate.
Defined.

(** ** Ratings, comparison and recommendations *)

Lemma Qlt_bool_iff (a b : Q) : Qlt_bool a b = true <-> (a < b)%Q.
Proof.
  unfold Qlt_bool. rewrite negb_true_iff. split.
  - intros H. apply Qnot_le_lt. intros Hle. apply Qle_bool_iff in Hle. congruence.
  - intros H. destruct (Qle_bool b a) eqn:E; [| reflexivity].
    apply Qle_bool_iff in E. lra.
Qed.

Lemma Qle_bool_false (a b : Q) : Qle_bool a b = false <-> (b < a)%Q.
Proof.
  split.
  - intros H. apply Qnot_le_lt. intros Hle. apply Qle_bool_iff in Hle. congruence.
  - intros H. destruct (Qle_bool a b) eqn:E; [| reflexivity].
    apply Qle_bool_iff in E. lra.
Qed.

(** The sustainability rating is [poor] exactly for the scores below 60 (the
    configured [poor] threshold 40 is not consulted, so 40 to 59 is rated
    poor as well), and a higher score never has a lower rating. *)
Theorem getSustainabilityRating_buckets (c c' : CityModel) :
  (getSustainabilityRating c = Poor <-> (getSustainabilityScore c < 60)%Q) /\
  ((getSustainabilityScore c <= getSustainabilityScore c')%Q ->
   rank (getSustainabilityRating c) <= rank (getSustainabilityRating c')).
Proof.
  unfold getSustainabilityRating. cbn zeta.
  change (Thresholds.excellent METRIC_THRESHOLDS.sustainability) with 90%Q.
  change (Thresholds.good METRIC_THRESHOLDS.sustainability) with 75%Q.
  change (Thresholds.fair METRIC_THRESHOLDS.sustainability) with 60%Q.
  set (s := getSustainabilityScore c). set (s' := getSustainabilityScore c').
  split.
  - destruct (Qle_bool 90 s) eqn:E1; [apply Qle_bool_iff in E1 | apply Qle_bool_false in E1];
      [split; [discriminate | lra] |].
    destruct (Qle_bool 75 s) eqn:E2; [apply Qle_bool_iff in E2 | apply Qle_bool_false in E2];
      [split; [discriminate | lra] |].
    destruct (Qle_bool 60 s) eqn:E3; [apply Qle_bool_iff in E3 | apply Qle_bool_false in E3];
      [split; [discriminate | lra] |].
    split; [intros _; exact E3 | reflexivity].
  - intros Hle.
    destruct (Qle_bool 90 s) eqn:E1; [apply Qle_bool_iff in E1 | apply Qle_bool_false in E1];
    destruct (Qle_bool 75 s) eqn:E2; [apply Qle_bool_iff in E2 | apply Qle_bool_false in E2 | apply Qle_bool_iff in E2 | apply Qle_bool_false in E2];
    destruct (Qle_bool 60 s) eqn:E3; try apply Qle_bool_iff in E3; try apply Qle_bool_false in E3;
    destruct (Qle_bool 90 s') eqn:F1; try apply Qle_bool_iff in F1; try apply Qle_bool_false in F1;
    destruct (Qle_bool 75 s') eqn:F2; try apply Qle_bool_iff in F2; try apply Qle_bool_false in F2;
    destruct (Qle_bool 60 s') eqn:F3; try apply Qle_bool_iff in F3; try apply Qle_bool_false in F3;
    cbn; first [lia | lra].
Qed.

Lemma getSustainabilityRating_buckets_witness :
  rank (getSustainabilityRating sample_city)
  <= rank (getSustainabilityRating
             (city (snd (applyScenario "renewable-energy" (newSimulator sample_city))))).
Proof.
  apply getSustainabilityRating_buckets. vm_compute. discriminate.
Defined.

Lemma getAirQuality_status_mono (c c' : CityModel) :
  (airQuality (stats c) <= airQuality (stats c'))%Q ->
  rank (AirQualityView.status (getAirQuality c))
  <= rank (AirQualityView.status (getAirQuality c')).
Proof.
  intros Hle. unfold getAirQuality.
  set (a := airQuality (stats c)) in *. set (a' := airQuality (stats c')) in *.
  destruct (Qle_bool 80 a) eqn:E1; try apply Qle_bool_iff in E1; try apply Qle_bool_false in E1;
  destruct (Qle_bool 60 a) eqn:E2; try apply Qle_bool_iff in E2; try apply Qle_bool_false in E2;
  destruct (Qle_bool 40 a) eqn:E3; try apply Qle_bool_iff in E3; try apply Qle_bool_false in E3;
  destruct (Qle_bool 80 a') eqn:F1; try apply Qle_bool_iff in F1; try apply Qle_bool_false in F1;
  destruct (Qle_bool 60 a') eqn:F2; try apply Qle_bool_iff in F2; try apply Qle_bool_false in F2;
  destruct (Qle_bool 40 a') eqn:F3; try apply Qle_bool_iff in F3; try apply Qle_bool_false in F3;
  cbn; first [lia | lra].
Qed.

(** The air-quality status never improves as the clock moves forward:
    between two forward runs from the same idle engine, the one to the later
    year has a status at most as good, when the baseline air quality is not
    negative. *)
Theorem getAirQuality_never_improves (sim : Simulator) (t1 t2 : Z) (onUpdate : bool) :
  isRunning sim = false ->
  currentYear sim < t1 <= t2 ->
  (0 <= airQuality (baselineStats sim))%Q ->
  rank (AirQualityView.status (getAirQuality (city (fst (simulateTo t2 onUpdate sim)))))
  <= rank (AirQualityView.status (getAirQuality (city (fst (simulateTo t1 onUpdate sim))))).
Proof.
  intros Hrun Hdir Ha. apply getAirQuality_status_mono.
  rewrite !(simulateTo_closed_form sim _ onUpdate Hrun) by lia.
  unfold final_stats.
  replace (currentYear sim <? t1) with true by (symmetry; apply Z.ltb_lt; lia).
  replace (currentYear sim <? t2) with true by (symmetry; apply Z.ltb_lt; lia).
  cbn. apply degraded_antitone; [exact Ha | lra | lia].
Qed.

Lemma getAirQuality_never_improves_witness :
  let sim := newSimulator sample_city in
  rank (AirQualityView.status (getAirQuality (city (fst (simulateTo 2040 true sim)))))
  <= rank (AirQualityView.status (getAirQuality (city (fst (simulateTo 2026 true sim))))).
Proof.
  intros sim. apply (getAirQuality_never_improves sim 2026 2040 true).
  - reflexivity.
  - cbn. lia.
  - cbn. lra.
Defined.

(** The before/after diff that [applyScenario] hands back never shows a
    change of the green coverage, for any scenario of the catalog, while its
    carbon entry is the change actually stored. *)
Theorem compare_applyScenario (scenarioId : string) (sim : Simulator) (r : ScenarioResult) :
  fst (applyScenario scenarioId sim) = Some r ->
  let diff := compare (before r) (after r) in
  (Comparison.greenChange diff == 0)%Q /\
  Comparison.carbonChange diff
  = (carbonFootprint (stats (city (snd (applyScenario scenarioId sim))))
     - carbonFootprint (stats (city sim)))%Q.
Proof.
  unfold applyScenario. destruct (SCENARIOS !! scenarioId) as [sc |]; [| discriminate].
  cbn. intros [= <-]. cbn. split; [ring | reflexivity].
Qed.

Lemma compare_applyScenario_witness :
  let r := fst (applyScenario "green-expansion" (newSimulator sample_city)) in
  match r with
  | Some r => (Comparison.greenChange (compare (before r) (after r)) == 0)%Q
  | None => False
  end.
Proof.
  cbv zeta.
  destruct (fst (applyScenario "green-expansion" (newSimulator sample_city)))
    as [r |] eqn:E; [| vm_compute in E; discriminate].
  apply (compare_applyScenario "green-expansion" (newSimulator sample_city) r E).
Defined.

(** The recommendations are a sublist of the four fixed ones in their fixed
    order, and there is none exactly when the green coverage is at least 25,
    the transit score at least 60, the walkability at least 50 and the
    industrial zones do not outnumber the green ones. *)
Theorem getRecommendations_none (c : CityModel) :
  sublist (getRecommendations c) [rec_green; rec_transit; rec_walkability; rec_balance] /\
  (getRecommendations c = [] <->
   (25 <= greenCoverage (stats c))%Q /\ (60 <= transitScore (stats c))%Q /\
   (50 <= walkability (stats c))%Q /\
   n_industrial (distribution c) <= n_green (distribution c)).
Proof.
  unfold getRecommendations.
  destruct (Qlt_bool (greenCoverage (stats c)) 25) eqn:E1;
    [apply Qlt_bool_iff in E1 | apply negb_false_iff, Qle_bool_iff in E1];
  (destruct (Qlt_bool (transitScore (stats c)) 60) eqn:E2;
    [apply Qlt_bool_iff in E2 | apply negb_false_iff, Qle_bool_iff in E2]);
  (destruct (Qlt_bool (walkability (stats c)) 50) eqn:E3;
    [apply Qlt_bool_iff in E3 | apply negb_false_iff, Qle_bool_iff in E3]);
  (destruct (n_green (distribution c) <? n_industrial (distribution c)) eqn:E4;
    [apply Z.ltb_lt in E4 | apply Z.ltb_ge in E4]);
  cbn; (split; [repeat first [apply sublist_nil | apply sublist_skip | apply sublist_cons]
               | split; [intros H; try discriminate; repeat split; assumption
                        | intros (H1 & H2 & H3 & H4); first [reflexivity | lra | lia]]]).
Qed.

(** No scenario makes the green-space recommendation go away or appear:
    after [applyScenario] with any id it is given exactly when the green
    coverage before the call was below 25. *)
Theorem getRecommendations_green_unchanged (scenarioId : string) (sim : Simulator) :
  In rec_green (getRecommendations (city (snd (applyScenario scenarioId sim))))
  <-> (greenCoverage (stats (city sim)) < 25)%Q.
Proof.
  assert (Hg : greenCoverage (stats (city (snd (applyScenario scenarioId sim))))
               = greenCoverage (stats (city sim))).
  { unfold applyScenario. now destruct (SCENARIOS !! scenarioId). }
  unfold getRecommendations. rewrite Hg.
  destruct (Qlt_bool (greenCoverage (stats (city sim))) 25) eqn:E1.
  - apply Qlt_bool_iff in E1. split; [intros _; exact E1 | intros _].
    repeat match goal with
           | |- context [if ?b then _ else _] => destruct b
           end; cbn; tauto.
  - apply negb_false_iff, Qle_bool_iff in E1. split; [| intros H; lra].
    repeat match goal with
           | |- context [if ?b then _ else _] => destruct b
           end; cbn; intros H;
      repeat (destruct H as [H | H]; [discriminate |]); contradiction.
Qed.

(** ** Helper functions *)

(** [clamp] with bounds in order returns a value within them, returns the
    value itself (as a number) when that is within them, and clamping twice
    changes nothing. *)
Theorem clamp_within (value min max : Q) :
  (min <= max)%Q ->
  (min <= clamp value min max <= max)%Q /\
  ((min <= value <= max)%Q -> (clamp value min max == value)%Q) /\
  (clamp (clamp value min max) min max == clamp value min max)%Q.
Proof.
  intros Hb. unfold clamp.
  destruct (Math_max_spec value min) as [[H1 E1] | [H1 E1]]; rewrite E1.
  - destruct (Math_min_spec min max) as [[H2 E2] | [H2 E2]]; rewrite E2;
      (split; [lra | split; [intros; lra |]]).
    + destruct (Math_max_spec min min) as [[? ->] | [? ->]];
        destruct (Math_min_spec min max) as [[? ->] | [? ->]]; lra.
    + lra.
  - destruct (Math_min_spec value max) as [[H2 E2] | [H2 E2]]; rewrite E2;
      (split; [lra | split; [intros; lra |]]).
    + rewrite E1, E2. reflexivity.
    + destruct (Math_max_spec max min) as [[? ->] | [? ->]];
        destruct (Math_min_spec min max) as [[? E3] | [? E3]];
        destruct (Math_min_spec max max) as [[? E4] | [? E4]];
        rewrite ?E3, ?E4; lra.
Qed.

Lemma clamp_within_witness : (0 <= clamp 150 0 100 <= 100)%Q.
Proof. apply (clamp_within 150 0 100). lra. Defined.

(** With the bounds the wrong way round, [clamp] returns [max] for every
    value. *)
Theorem clamp_inverted_bounds (value min max : Q) :
  (max < min)%Q -> (clamp value min max == max)%Q.
Proof.
  intros Hb. unfold clamp.
  destruct (Math_max_spec value min) as [[H1 E1] | [H1 E1]]; rewrite E1;
    match goal with
    | |- (Math_min ?a ?b == _)%Q =>
        destruct (Math_min_spec a b) as [[H2 E2] | [H2 E2]]; rewrite E2; lra
    end.
Qed.

Lemma clamp_inverted_bounds_witness : (clamp 50 100 0 == 0)%Q.
Proof. apply clamp_inverted_bounds. lra. Defined.

(** The shares of the six zone kinds in a city that has cells. *)
Lemma shares_sum (r c i g t o : Q) :
  (0 <= r)%Q -> (0 <= c)%Q -> (0 <= i)%Q -> (0 <= g)%Q -> (0 <= t)%Q -> (0 <= o)%Q ->
  ~ (r + c + i + g + t + o == 0)%Q ->
  let total := (r + c + i + g + t + o)%Q in
  (0 <= r / total)%Q /\ (0 <= c / total)%Q /\ (0 <= i / total)%Q /\
  (0 <= g / total)%Q /\ (0 <= t / total)%Q /\ (0 <= o / total)%Q /\
  (r / total + c / total + i / total + g / total + t / total + o / total == 1)%Q.
Proof.
  intros Hr Hc Hi Hg Ht Ho Hne total.
  assert (Hinv : (0 <= / total)%Q) by (apply Qinv_le_0_compat; unfold total; lra).
  unfold Qdiv.
  repeat (split; [apply Qmult_le_0_compat; assumption |]).
  unfold total. field. exact Hne.
Qed.

(** [calculateSustainabilityScore] is 0 for a city without cells and
    otherwise, for counts that are not negative, an integer from 6 to 53:
    the weights cap the score, so it never reaches the [fair] threshold 60. *)
Lemma calculateSustainabilityScore_cases (d : Distribution) :
  0 <= n_residential d -> 0 <= n_commercial d -> 0 <= n_industrial d ->
  0 <= n_green d -> 0 <= n_transit d -> 0 <= n_road d ->
  let total := n_residential d + n_commercial d + n_industrial d
               + n_green d + n_transit d + n_road d in
  (total = 0 -> calculateSustainabilityScore d = 0) /\
  (total <> 0 -> 6 <= calculateSustainabilityScore d <= 53).
Proof.
  intros Hr Hc Hi Hg Ht Ho total. unfold calculateSustainabilityScore.
  set (r := inject_Z (n_residential d)). set (c := inject_Z (n_commercial d)).
  set (i := inject_Z (n_industrial d)). set (g := inject_Z (n_green d)).
  set (t := inject_Z (n_transit d)). set (o := inject_Z (n_road d)).
  assert (Htotal : (r + c + i + g + t + o == inject_Z total)%Q).
  { unfold r, c, i, g, t, o, total. now rewrite !inject_Z_plus. }
  split.
  - intros E. replace (Qeq_bool (r + c + i + g + t + o) 0) with true; [reflexivity |].
    symmetry. apply Qeq_bool_iff. rewrite Htotal, E. reflexivity.
  - intros Hne.
    assert (Hq : ~ (r + c + i + g + t + o == 0)%Q).
    { rewrite Htotal. intros H. apply Hne.
      unfold Qeq in H. cbn in H. lia. }
    replace (Qeq_bool (r + c + i + g + t + o) 0) with false.
    2:{ symmetry. apply not_true_is_false. intros H. now apply Qeq_bool_iff in H. }
    assert (H0 : forall z, 0 <= z -> (0 <= inject_Z z)%Q).
    { intros z Hz. change 0%Q with (inject_Z 0). now rewrite <- Zle_Qle. }
    destruct (shares_sum r c i g t o) as (Sr & Sc & Si & Sg & St & So & Ssum);
      try (apply H0; assumption); [exact Hq |].
    set (T := (r + c + i + g + t + o)%Q) in *.
    set (xr := (r / T)%Q) in *. set (xc := (c / T)%Q) in *. set (xi := (i / T)%Q) in *.
    set (xg := (g / T)%Q) in *. set (xt := (t / T)%Q) in *. set (xo := (o / T)%Q) in *.
    set (num := (xg * 100 * 2.5 + xt * 100 * 2.0 + xr * 100 * 1.0 + xc * 100 * 0.8
                 + xo * 100 * 0.5 + xi * 100 * 0.3)%Q).
    assert (Hscore : (num / (2.5 + 2.0 + 1.0 + 0.8 + 0.5 + 0.3) * 1.5
                      == num * (15 # 71))%Q) by field.
    assert (Hnum : (30 <= num <= 250)%Q) by (unfold num; lra).
    assert (Hlo : (6.3 <= num * (15 # 71))%Q) by lra.
    assert (Hhi : (num * (15 # 71) <= 52.9)%Q) by lra.
    assert (Hcl : (clamp (num / (2.5 + 2.0 + 1.0 + 0.8 + 0.5 + 0.3) * 1.5) 0 100
                   == num * (15 # 71))%Q).
    { unfold clamp. rewrite <- Hscore in Hlo, Hhi.
      set (v := (num / (2.5 + 2.0 + 1.0 + 0.8 + 0.5 + 0.3) * 1.5)%Q) in *.
      destruct (Math_max_spec v 0) as [[? ->] | [? ->]]; [lra |].
      destruct (Math_min_spec v 100) as [[? ->] | [? ->]]; [| lra].
      unfold v. exact Hscore. }
    rewrite (Math_round_comp _ _ Hcl). split.
    + rewrite <- (Math_round_Z 6). apply Math_round_mono.
      change (inject_Z 6) with 6%Q. lra.
    + change 53 with (Math_round 52.9). apply Math_round_mono. exact Hhi.
Qed.

Theorem calculateSustainabilityScore_range (d : Distribution) :
  0 <= n_residential d -> 0 <= n_commercial d -> 0 <= n_industrial d ->
  0 <= n_green d -> 0 <= n_transit d -> 0 <= n_road d ->
  let total := n_residential d + n_commercial d + n_industrial d
               + n_green d + n_transit d + n_road d in
  (total = 0 -> calculateSustainabilityScore d = 0) /\
  (total <> 0 -> 6 <= calculateSustainabilityScore d <= 53).
Proof. apply calculateSustainabilityScore_cases. Qed.

Lemma calculateSustainabilityScore_range_witness :
  6 <= calculateSustainabilityScore (mkDistribution 0 0 0 0 100 0 0) <= 53.
Proof.
  apply (calculateSustainabilityScore_range (mkDistribution 0 0 0 0 100 0 0));
    cbn; try lia; discriminate.
Defined.

(** A city whose sustainability score is the one that
    [calculateSustainabilityScore] gives for its zone counts is rated
    [poor], whatever the counts are. *)
Theorem calculated_score_rated_poor (c : CityModel) :
  0 <= n_residential (distribution c) -> 0 <= n_commercial (distribution c) ->
  0 <= n_industrial (distribution c) -> 0 <= n_green (distribution c) ->
  0 <= n_transit (distribution c) -> 0 <= n_road (distribution c) ->
  sustainabilityScore (stats c) = inject_Z (calculateSustainabilityScore (distribution c)) ->
  getSustainabilityRating c = Poor.
Proof.
  intros Hr Hc Hi Hg Ht Ho Hs.
  assert (Hle : calculateSustainabilityScore (distribution c) <= 53).
  { destruct (calculateSustainabilityScore_cases (distribution c) Hr Hc Hi Hg Ht Ho)
      as [H0 H1].
    destruct (Z.eq_dec (n_residential (distribution c) + n_commercial (distribution c)
                        + n_industrial (distribution c) + n_green (distribution c)
                        + n_transit (distribution c) + n_road (distribution c)) 0)
      as [E | E]; [rewrite (H0 E) | specialize (H1 E)]; lia. }
  unfold getSustainabilityRating, getSustainabilityScore. cbn zeta. rewrite Hs.
  change (Thresholds.excellent METRIC_THRESHOLDS.sustainability) with (inject_Z 90).
  change (Thresholds.good METRIC_THRESHOLDS.sustainability) with (inject_Z 75).
  change (Thresholds.fair METRIC_THRESHOLDS.sustainability) with (inject_Z 60).
  repeat match goal with
         | |- context [Qle_bool (inject_Z ?a) (inject_Z ?b)] =>
             replace (Qle_bool (inject_Z a) (inject_Z b)) with false
               by (symmetry; apply Qle_bool_false; rewrite <- Zlt_Qlt; lia)
         end.
  reflexivity.
Qed.

Lemma calculated_score_rated_poor_witness :
  getSustainabilityRating
    (mkCity (mkStats 500000 (inject_Z (calculateSustainabilityScore sample_distribution))
               10 60 30 50 100 80 1000)
            sample_distribution) = Poor.
Proof. apply calculated_score_rated_poor; cbn; try lia. reflexivity. Defined.

(** ** The layout generator *)

Lemma step_min (c x k : Q) (b : bool) :
  (0 <= c)%Q -> (0 <= k)%Q -> (0 <= x)%Q ->
  (0 <= (if b then Math_min c (x + k) else x))%Q.
Proof.
  intros Hc Hk Hx. destruct b; [| exact Hx].
  destruct (Math_min_spec c (x + k)) as [[? ->] | [? ->]]; lra.
Qed.

Lemma step_max (c x k : Q) (b : bool) :
  (0 <= c)%Q -> (0 <= x)%Q ->
  (0 <= (if b then Math_max c (x - k) else x))%Q.
Proof.
  intros Hc Hx. destruct b; [| exact Hx].
  pose proof (Math_max_lower c (x - k)). lra.
Qed.

Lemma keyword_adjustments_nonneg (lower : string) (params : Layout.t) :
  (0 <= Layout.residentialRatio params)%Q -> (0 <= Layout.commercialRatio params)%Q ->
  (0 <= Layout.industrialRatio params)%Q -> (0 <= Layout.greenRatio params)%Q ->
  (0 <= Layout.transitRatio params)%Q -> (0 <= Layout.roadRatio params)%Q ->
  let a := keyword_adjustments lower params in
  (0 <= Layout.residentialRatio a)%Q /\ (0 <= Layout.commercialRatio a)%Q /\
  (0 <= Layout.industrialRatio a)%Q /\ (0 <= Layout.greenRatio a)%Q /\
  (0 <= Layout.transitRatio a)%Q /\ (0 <= Layout.roadRatio a)%Q.
Proof.
  intros Hr Hc Hi Hg Ht Ho. unfold keyword_adjustments. cbn.
  repeat split;
    repeat first [ apply step_min | apply step_max ]; first [ assumption | lra ].
Qed.

(** [adjustFromPrompt] keeps ratios that are not negative: when the six
    input ratios are at least 0, so are the six it returns, for every
    prompt. *)
Theorem adjustFromPrompt_nonneg (prompt : string) (params : Layout.t) :
  (0 <= Layout.residentialRatio params)%Q -> (0 <= Layout.commercialRatio params)%Q ->
  (0 <= Layout.industrialRatio params)%Q -> (0 <= Layout.greenRatio params)%Q ->
  (0 <= Layout.transitRatio params)%Q -> (0 <= Layout.roadRatio params)%Q ->
  let r := adjustFromPrompt prompt params in
  (0 <= Layout.residentialRatio r)%Q /\ (0 <= Layout.commercialRatio r)%Q /\
  (0 <= Layout.industrialRatio r)%Q /\ (0 <= Layout.greenRatio r)%Q /\
  (0 <= Layout.transitRatio r)%Q /\ (0 <= Layout.roadRatio r)%Q.
Proof.
  intros Hr Hc Hi Hg Ht Ho. unfold adjustFromPrompt. cbn zeta.
  pose proof (keyword_adjustments_nonneg (toLowerCase prompt) params Hr Hc Hi Hg Ht Ho)
    as Ha. cbn zeta in Ha.
  revert Ha. generalize (keyword_adjustments (toLowerCase prompt) params).
  intros a Ha. unfold normalize_ratios. cbn zeta.
  destruct (Qlt_bool 0.95 (ratio_total a)) eqn:E; [| exact Ha].
  apply Qlt_bool_iff in E.
  assert (Hf : (0 <= 0.95 / ratio_total a)%Q).
  { apply Qmult_le_0_compat; [lra | apply Qinv_le_0_compat; lra]. }
  destruct Ha as (? & ? & ? & ? & ? & ?). cbn.
  repeat split; apply Qmult_le_0_compat; assumption.
Qed.

Lemma adjustFromPrompt_nonneg_witness :
  (0 <= Layout.greenRatio
          (adjustFromPrompt "A car-free city for 2 million people with parks"
             (Layout.mk 0.35 0.15 0.1 0.25 0.1 0.05)))%Q.
Proof.
  apply (adjustFromPrompt_nonneg "A car-free city for 2 million people with parks"
           (Layout.mk 0.35 0.15 0.1 0.25 0.1 0.05)); cbn; lra.
Defined.

(** ** Scenarios and runs together *)

(** What a scenario did to the population, the air quality, the walkability
    and the carbon footprint is gone after the next run that moves the
    clock: those four fields are the same as if the scenario had not been
    applied. *)
Theorem scenario_overwritten_by_run
  (scenarioId : string) (sim : Simulator) (target : Z) (onUpdate : bool) :
  isRunning sim = false -> target <> currentYear sim ->
  governed (stats (city (fst (simulateTo target onUpdate
                                (snd (applyScenario scenarioId sim))))))
  = governed (stats (city (fst (simulateTo target onUpdate sim)))).
Proof.
  intros Hrun Hne.
  destruct (applyScenario_engine scenarioId sim) as (Hr & Hy & Hb & Hbs).
  rewrite simulateTo_closed_form by congruence.
  rewrite (simulateTo_closed_form sim target onUpdate Hrun Hne).
  unfold final_stats. cbn. rewrite Hy, Hb, Hbs.
  now destruct ((currentYear sim <? target) || (baseYear sim <? target)).
Qed.

Lemma scenario_overwritten_by_run_witness :
  let sim := newSimulator sample_city in
  governed (stats (city (fst (simulateTo 2026 true
                                (snd (applyScenario "population-growth" sim))))))
  = governed (stats (city (fst (simulateTo 2026 true sim)))).
Proof.
  intros sim. apply scenario_overwritten_by_run; [reflexivity | discriminate].
Defined.

(** ** Zone shares *)

Lemma Math_round_near (x : Q) :
  (x - 0.5 <= inject_Z (Math_round x) <= x + 0.5)%Q.
Proof.
  unfold Math_round. split.
  - pose proof (Qlt_floor (x + 0.5)) as H. rewrite inject_Z_plus in H.
    change (inject_Z 1) with 1%Q in H. lra.
  - apply Qfloor_le.
Qed.

Lemma share_zero (total : Z) : share 0 total = 0.
Proof.
  unfold share. rewrite (Math_round_comp _ (inject_Z 0)); [apply Math_round_Z |].
  unfold Qdiv. change (inject_Z 0) with 0%Q. ring.
Qed.

(** The percentages of the zone-distribution view are rounded one by one:
    for counts that are not negative and a city with cells, every share is
    from 0 to 100 and the shares add up to 100 within 3 points, one half
    point per zone kind. *)
Theorem getZoneDistribution_rounding (c : CityModel) :
  let d := distribution c in
  0 <= n_residential d -> 0 <= n_commercial d -> 0 <= n_industrial d ->
  0 <= n_green d -> 0 <= n_transit d -> 0 <= n_road d ->
  n_residential d + n_commercial d + n_industrial d
  + n_green d + n_transit d + n_road d <> 0 ->
  List.Forall (fun s => 0 <= s <= 100) (data (getZoneDistribution c)) /\
  97 <= fold_right Z.add 0 (data (getZoneDistribution c)) <= 103.
Proof.
  intros d Hr Hc Hi Hg Ht Ho Hne.
  set (T := n_residential d + n_commercial d + n_industrial d
            + n_green d + n_transit d + n_road d) in *.
  assert (H0 : forall z, 0 <= z -> (0 <= inject_Z z)%Q).
  { intros z Hz. change 0%Q with (inject_Z 0). now rewrite <- Zle_Qle. }
  assert (HT : (inject_Z (n_residential d) + inject_Z (n_commercial d)
                + inject_Z (n_industrial d) + inject_Z (n_green d)
                + inject_Z (n_transit d) + inject_Z (n_road d) == inject_Z T)%Q).
  { unfold T. now rewrite !inject_Z_plus. }
  assert (HTne : ~ (inject_Z T == 0)%Q).
  { intros H. apply Hne. unfold Qeq in H. cbn in H. lia. }
  destruct (shares_sum (inject_Z (n_residential d)) (inject_Z (n_commercial d))
              (inject_Z (n_industrial d)) (inject_Z (n_green d))
              (inject_Z (n_transit d)) (inject_Z (n_road d)))
    as (Sr & Sc & Si & Sg & St & So & Ssum); try (apply H0; assumption).
  { now rewrite HT. }
  cbn zeta in *.
  assert (Hdiv : forall x, (x / (inject_Z (n_residential d) + inject_Z (n_commercial d)
                                 + inject_Z (n_industrial d) + inject_Z (n_green d)
                                 + inject_Z (n_transit d) + inject_Z (n_road d))
                            == x / inject_Z T)%Q).
  { intros x. now rewrite HT. }
  rewrite !Hdiv in *. clear Hdiv.
  pose proof (Math_round_near (inject_Z (n_residential d) / inject_Z T * 100)) as Nr.
  pose proof (Math_round_near (inject_Z (n_commercial d) / inject_Z T * 100)) as Nc.
  pose proof (Math_round_near (inject_Z (n_industrial d) / inject_Z T * 100)) as Ni.
  pose proof (Math_round_near (inject_Z (n_green d) / inject_Z T * 100)) as Ng.
  pose proof (Math_round_near (inject_Z (n_transit d) / inject_Z T * 100)) as Nt.
  pose proof (Math_round_near (inject_Z (n_road d) / inject_Z T * 100)) as No.
  fold (share (n_residential d) T) in Nr. fold (share (n_commercial d) T) in Nc.
  fold (share (n_industrial d) T) in Ni. fold (share (n_green d) T) in Ng.
  fold (share (n_transit d) T) in Nt. fold (share (n_road d) T) in No.
  set (qr := (inject_Z (n_residential d) / inject_Z T)%Q) in *.
  set (qc := (inject_Z (n_commercial d) / inject_Z T)%Q) in *.
  set (qi := (inject_Z (n_industrial d) / inject_Z T)%Q) in *.
  set (qg := (inject_Z (n_green d) / inject_Z T)%Q) in *.
  set (qt := (inject_Z (n_transit d) / inject_Z T)%Q) in *.
  set (qo := (inject_Z (n_road d) / inject_Z T)%Q) in *.
  (* every share lies in [0, 100] *)
  assert (Hrange : forall q s, (0 <= q)%Q -> (q <= 1)%Q ->
                     (q * 100 - 0.5 <= inject_Z s <= q * 100 + 0.5)%Q -> 0 <= s <= 100).
  { intros q s Hq0 Hq1 [Hlo Hhi]. split.
    - assert (H : (inject_Z (-1) < inject_Z s)%Q) by (change (inject_Z (-1)) with (-1)%Q; lra).
      rewrite <- Zlt_Qlt in H. lia.
    - assert (H : (inject_Z s < inject_Z 101)%Q) by (change (inject_Z 101) with 101%Q; lra).
      rewrite <- Zlt_Qlt in H. lia. }
  assert (Rr := Hrange qr _ Sr ltac:(lra) Nr). assert (Rc := Hrange qc _ Sc ltac:(lra) Nc).
  assert (Ri := Hrange qi _ Si ltac:(lra) Ni). assert (Rg := Hrange qg _ Sg ltac:(lra) Ng).
  assert (Rt := Hrange qt _ St ltac:(lra) Nt). assert (Ro := Hrange qo _ So ltac:(lra) No).
  (* a zone that is left out has the share 0 *)
  assert (Hout : forall n, 0 <= n -> (0 <? n) = false -> share n T = 0).
  { intros n Hn E. apply Z.ltb_ge in E. replace n with 0 by lia. apply share_zero. }
  (* the sum of all six shares *)
  assert (Hsum : 97 <= share (n_residential d) T + share (n_commercial d) T
                      + share (n_industrial d) T + share (n_green d) T
                      + share (n_transit d) T + share (n_road d) T <= 103).
  { split.
    - assert (H : (inject_Z 96 < inject_Z (share (n_residential d) T + share (n_commercial d) T
                      + share (n_industrial d) T + share (n_green d) T
                      + share (n_transit d) T + share (n_road d) T))%Q).
      { rewrite !inject_Z_plus. change (inject_Z 96) with 96%Q. lra. }
      rewrite <- Zlt_Qlt in H. lia.
    - assert (H : (inject_Z (share (n_residential d) T + share (n_commercial d) T
                      + share (n_industrial d) T + share (n_green d) T
                      + share (n_transit d) T + share (n_road d) T) < inject_Z 104)%Q).
      { rewrite !inject_Z_plus. change (inject_Z 104) with 104%Q. lra. }
      rewrite <- Zlt_Qlt in H. lia. }
  unfold getZoneDistribution, getZoneDistribution_with. fold d. rewrite sum_values.
  replace (n_empty d + n_residential d + n_commercial d + n_industrial d + n_green d
           + n_transit d + n_road d - n_empty d) with T by (unfold T; lia).
  replace (T =? 0) with false by (symmetry; now apply Z.eqb_neq).
  unfold zones. cbn [fold_left count_of].
  destruct (0 <? n_residential d) eqn:Er; [| rewrite (Hout _ Hr Er) in Hsum];
  (destruct (0 <? n_commercial d) eqn:Ec; [| rewrite (Hout _ Hc Ec) in Hsum]);
  (destruct (0 <? n_industrial d) eqn:Ei; [| rewrite (Hout _ Hi Ei) in Hsum]);
  (destruct (0 <? n_green d) eqn:Eg; [| rewrite (Hout _ Hg Eg) in Hsum]);
  (destruct (0 <? n_transit d) eqn:Et; [| rewrite (Hout _ Ht Et) in Hsum]);
  (destruct (0 <? n_road d) eqn:Eo; [| rewrite (Hout _ Ho Eo) in Hsum]);
  cbn [fold_right data labels colors app];
  (split; [repeat (apply List.Forall_cons; [assumption |]); apply List.Forall_nil
               | lia]).
Qed.

Lemma getZoneDistribution_rounding_witness :
  97 <= fold_right Z.add 0
          (data (getZoneDistribution (mkCity sample_stats (mkDistribution 7 1 1 1 0 0 0))))
     <= 103.
Proof.
  apply (getZoneDistribution_rounding (mkCity sample_stats (mkDistribution 7 1 1 1 0 0 0)));
    cbn; lia.
Defined.
